(** * app-fitness: the workout/profile store behind [server.ts]

    A shallow embedding of the five REST handlers of [src/server.ts] and of
    the SQL statements they run, followed by the properties of the
    persistence and aggregation layer.

    Modelling conventions.
    - A table is the list of its rows in rowid order (the order of a table
      scan).  The two AUTOINCREMENT tables carry their [sqlite_sequence]
      counter next to the rows.
    - The database file is an [option store]: [None] is a file in which the
      start-up script has never run.
    - Request bodies are typed as in [src/types.ts]; every field may be
      missing ([Undefined]) or [null] ([JsNull]).  INTEGER columns hold
      integers ([Z]), REAL columns hold decimals ([Q]); binary floating
      point, 64-bit rowid exhaustion and values of another JSON type than
      the declared one are outside the model.
    - [ORDER BY] is SQLite's sorter: a stable sort of the scan on the sort
      key alone.
    - [SUM] adds 64-bit integers and fails with "integer overflow" once a
      running sum leaves the signed 64-bit range; a cell beyond that range
      is a REAL to SQLite and outside the model.
    - A JavaScript number is followed while it is an integer of magnitude
      at most 2^53, where the arithmetic of doubles is exact; any other
      double is [Rounded]. *)

From Stdlib Require Import String Ascii ZArith QArith List Bool Lia.
From Stdlib Require Import Permutation Sorted.
Import ListNotations.

Local Open Scope string_scope.
Local Open Scope list_scope.
Local Open Scope Z_scope.

Set Implicit Arguments.

(* ------------------------------------------------------------------ *)
(** ** Values crossing the HTTP boundary *)

(** A property read off [req.body]. *)
Inductive field (A : Type) : Type :=
| Undefined : field A
| JsNull : field A
| Value : A -> field A.

Arguments Undefined {A}.
Arguments JsNull {A}.
Arguments Value {A} _.

(** What better-sqlite3 binds for a parameter: [undefined] and [null] both
    become SQL NULL, here [None]. *)
Definition bind_param {A : Type} (f : field A) : option A :=
  match f with
  | Undefined => None
  | JsNull => None
  | Value a => Some a
  end.

(** [{name, weight, height, goal}] of POST /api/profile. *)
Record ProfileBody : Type := mkProfileBody {
  pb_name : field string;
  pb_weight : field Q;
  pb_height : field Q;
  pb_goal : field string
}.

(** One element of [exercises]: [{name, sets, reps, weight}]. *)
Record ExerciseBody : Type := mkExerciseBody {
  eb_name : field string;
  eb_sets : field Z;
  eb_reps : field Z;
  eb_weight : field Q
}.

(** The [exercises] property of the body, before the handler inspects it.
    An array element is [None] when it is [null] (reading [ex.name] then
    throws); an element that is a number or a string reads as an object
    without properties. *)
Inductive jsval : Type :=
| JUndefined : jsval
| JNull : jsval
| JBool : bool -> jsval
| JNum : Z -> jsval
| JStr : string -> jsval
| JObj : jsval
| JArr : list (option ExerciseBody) -> jsval.

(** JavaScript truthiness, the left operand of [exercises && ...]. *)
Definition truthy (v : jsval) : bool :=
  match v with
  | JUndefined => false
  | JNull => false
  | JBool b => b
  | JNum n => negb (n =? 0)%Z
  | JStr s => negb (s =? "")%string
  | JObj => true
  | JArr _ => true
  end.

(** [Array.isArray]. *)
Definition isArray (v : jsval) : bool :=
  match v with
  | JArr _ => true
  | _ => false
  end.

Definition elements (v : jsval) : list (option ExerciseBody) :=
  match v with
  | JArr l => l
  | _ => []
  end.

(** [{name, date, duration, calories, exercises}] of POST /api/workouts. *)
Record WorkoutBody : Type := mkWorkoutBody {
  wb_name : field string;
  wb_date : field string;
  wb_duration : field Z;
  wb_calories : field Z;
  wb_exercises : jsval
}.

(** JSON sent back by [res.json]. [JsonNone] is [undefined]. *)
#[local] Unset Elimination Schemes.
Inductive json : Type :=
| JsonNone : json
| JsonNull : json
| JsonInt : Z -> json
| JsonReal : Q -> json
| JsonStr : string -> json
| JsonBool : bool -> json
| JsonObj : list (string * json) -> json
| JsonArr : list json -> json.
#[local] Set Elimination Schemes.

Definition json_opt {A : Type} (f : A -> json) (o : option A) : json :=
  match o with
  | Some a => f a
  | None => JsonNull
  end.

Definition keys (j : json) : list string :=
  match j with
  | JsonObj kvs => map fst kvs
  | _ => []
  end.

Fixpoint assoc (k : string) (kvs : list (string * json)) : option json :=
  match kvs with
  | [] => None
  | (k', v) :: rest => if (k =? k')%string then Some v else assoc k rest
  end.

(** [obj.k] on a response object. *)
Definition get_field (k : string) (j : json) : option json :=
  match j with
  | JsonObj kvs => assoc k kvs
  | _ => None
  end.

(* ------------------------------------------------------------------ *)
(** ** The database *)

(** Row of [workouts]: [name] and [date] are TEXT NOT NULL. *)
Record workout_row : Type := mkWorkout {
  w_id : Z;
  w_name : string;
  w_date : string;
  w_duration : option Z;
  w_calories : option Z
}.

(** Row of [exercises]: [name] is TEXT NOT NULL. *)
Record exercise_row : Type := mkExercise {
  e_id : Z;
  e_workout_id : Z;
  e_name : string;
  e_sets : option Z;
  e_reps : option Z;
  e_weight : option Q
}.

(** Row of [user_profile]; every column but the key is nullable. *)
Record profile_row : Type := mkProfile {
  p_id : Z;
  p_name : option string;
  p_weight : option Q;
  p_height : option Q;
  p_goal : option string
}.

Record store : Type := mkStore {
  workouts : list workout_row;
  workouts_seq : Z;
  exercises : list exercise_row;
  exercises_seq : Z;
  user_profile : list profile_row
}.

(** The three [CREATE TABLE IF NOT EXISTS] on a file without tables. *)
Definition empty_store : store :=
  mkStore [] 0 [] 0 [].

Inductive error : Type :=
| NotNullConstraint : string -> error
| TypeError : error
| IntegerOverflow : error.

Inductive result (A : Type) : Type :=
| Ok : A -> result A
| Err : error -> result A.

Arguments Ok {A} _.
Arguments Err {A} _.

(** A statement or handler: it may throw, and it leaves a store behind
    either way. *)
Definition M (A : Type) : Type := store -> result A * store.

Definition ret {A : Type} (a : A) : M A := fun s => (Ok a, s).

Definition bind {A B : Type} (m : M A) (k : A -> M B) : M B :=
  fun s =>
    match m s with
    | (Ok a, s') => k a s'
    | (Err e, s') => (Err e, s')
    end.

Notation "x <- m ;; k" := (bind m (fun x => k))
  (at level 61, m at next level, right associativity).
Notation "m ;;; k" := (bind m (fun _ => k))
  (at level 61, right associativity).

(* ------------------------------------------------------------------ *)
(** ** Start-up script: [db.exec] at module load *)

(** The seed row of the [INSERT OR IGNORE]. *)
Definition default_profile : profile_row :=
  mkProfile 1 (Some "Atleta") (Some (75 # 1)) (Some (175 # 1))
    (Some "Ganhar massa muscular").

Definition has_rowid (id : Z) (rows : list profile_row) : bool :=
  existsb (fun r => (p_id r =? id)%Z) rows.

(** [INSERT OR IGNORE INTO user_profile (id, ...) VALUES (1, ...)]: a
    conflict on the primary key skips the insert. *)
Definition insert_or_ignore_profile (r : profile_row) (s : store) : store :=
  if has_rowid (p_id r) (user_profile s) then s
  else mkStore (workouts s) (workouts_seq s) (exercises s) (exercises_seq s)
         (user_profile s ++ [r]).

(** The whole script: create the tables that are missing, then seed. *)
Definition init (file : option store) : store :=
  let s := match file with
           | None => empty_store
           | Some s => s
           end in
  insert_or_ignore_profile default_profile s.

(* ------------------------------------------------------------------ *)
(** ** GET /api/profile and POST /api/profile *)

(** [SELECT * FROM user_profile WHERE id = 1], [.get()]: first match. *)
Definition select_profile (s : store) : option profile_row :=
  find (fun r => (p_id r =? 1)%Z) (user_profile s).

(** [SELECT *] names every column of the table, in declaration order. *)
Definition profile_json (r : profile_row) : json :=
  JsonObj [("id", JsonInt (p_id r));
           ("name", json_opt JsonStr (p_name r));
           ("weight", json_opt JsonReal (p_weight r));
           ("height", json_opt JsonReal (p_height r));
           ("goal", json_opt JsonStr (p_goal r))].

Definition getProfile : M json :=
  fun s =>
    match select_profile s with
    | Some r => (Ok (profile_json r), s)
    | None => (Ok JsonNone, s)
    end.

(** [UPDATE user_profile SET name = ?, weight = ?, height = ?, goal = ?
    WHERE id = 1]. *)
Definition update_profile (b : ProfileBody) : M unit :=
  fun s =>
    (Ok tt,
     mkStore (workouts s) (workouts_seq s) (exercises s) (exercises_seq s)
       (map (fun r =>
               if (p_id r =? 1)%Z
               then mkProfile (p_id r) (bind_param (pb_name b))
                      (bind_param (pb_weight b)) (bind_param (pb_height b))
                      (bind_param (pb_goal b))
               else r)
          (user_profile s))).

Definition updateProfile (b : ProfileBody) : M json :=
  update_profile b ;;;
  ret (JsonObj [("success", JsonBool true)]).

(* ------------------------------------------------------------------ *)
(** ** POST /api/workouts *)

Fixpoint max_workout_id (rows : list workout_row) : Z :=
  match rows with
  | [] => 0
  | r :: rest => Z.max (w_id r) (max_workout_id rest)
  end.

Fixpoint max_exercise_id (rows : list exercise_row) : Z :=
  match rows with
  | [] => 0
  | r :: rest => Z.max (e_id r) (max_exercise_id rest)
  end.

(** AUTOINCREMENT: one more than the largest rowid the table ever held. *)
Definition next_rowid (seq largest : Z) : Z := Z.max seq largest + 1.

(** [INSERT INTO workouts (name, date, duration, calories) VALUES (?,?,?,?)],
    returning [lastInsertRowid]. A NOT NULL violation aborts the statement
    and leaves the table as it was. *)
Definition insert_workout (name date : field string)
    (duration calories : field Z) : M Z :=
  fun s =>
    match bind_param name, bind_param date with
    | None, _ => (Err (NotNullConstraint "workouts.name"), s)
    | Some _, None => (Err (NotNullConstraint "workouts.date"), s)
    | Some n, Some d =>
        let id := next_rowid (workouts_seq s) (max_workout_id (workouts s)) in
        (Ok id,
         mkStore
           (workouts s ++
              [mkWorkout id n d (bind_param duration) (bind_param calories)])
           id (exercises s) (exercises_seq s) (user_profile s))
    end.

(** [insertExercise.run(workoutId, ex.name, ex.sets, ex.reps, ex.weight)]. *)
Definition insert_exercise (workoutId : Z) (ex : option ExerciseBody)
  : M unit :=
  fun s =>
    match ex with
    | None => (Err TypeError, s)
    | Some e =>
        match bind_param (eb_name e) with
        | None => (Err (NotNullConstraint "exercises.name"), s)
        | Some n =>
            let id :=
              next_rowid (exercises_seq s) (max_exercise_id (exercises s)) in
            (Ok tt,
             mkStore (workouts s) (workouts_seq s)
               (exercises s ++
                  [mkExercise id workoutId n (bind_param (eb_sets e))
                     (bind_param (eb_reps e)) (bind_param (eb_weight e))])
               id (user_profile s))
        end
    end.

(** [for (const ex of exercises) insertExercise.run(...)]. *)
Fixpoint insert_exercises (workoutId : Z) (exs : list (option ExerciseBody))
  : M unit :=
  match exs with
  | [] => ret tt
  | ex :: rest =>
      insert_exercise workoutId ex ;;;
      insert_exercises workoutId rest
  end.

Definition createWorkout (b : WorkoutBody) : M json :=
  workoutId <- insert_workout (wb_name b) (wb_date b) (wb_duration b)
                 (wb_calories b) ;;
  (if truthy (wb_exercises b) && isArray (wb_exercises b)
   then insert_exercises workoutId (elements (wb_exercises b))
   else ret tt) ;;;
  ret (JsonObj [("id", JsonInt workoutId)]).

(* ------------------------------------------------------------------ *)
(** ** [ORDER BY]: SQLite's sorter *)

Section OrderBy.

Variable A : Type.

(** [precedes a b]: the sort key of [a] is not after the key of [b]. *)
Variable precedes : A -> A -> bool.

(** A row goes in front of the first row it does not follow, hence in
    front of the rows with its own key that were scanned after it. *)
Fixpoint insert_row (x : A) (l : list A) : list A :=
  match l with
  | [] => [x]
  | y :: l' => if precedes x y then x :: y :: l' else y :: insert_row x l'
  end.

Fixpoint order_by (l : list A) : list A :=
  match l with
  | [] => []
  | x :: l' => insert_row x (order_by l')
  end.

End OrderBy.

(* ------------------------------------------------------------------ *)
(** ** GET /api/workouts *)

(** [ORDER BY date DESC] on a TEXT column: bytewise comparison, later
    dates first. *)
Definition date_desc (a b : workout_row) : bool :=
  (w_date b <=? w_date a)%string.

(** [SELECT * FROM workouts ORDER BY date DESC], [.all()]. *)
Definition select_workouts (s : store) : list workout_row :=
  order_by date_desc (workouts s).

Definition workout_json (r : workout_row) : json :=
  JsonObj [("id", JsonInt (w_id r));
           ("name", JsonStr (w_name r));
           ("date", JsonStr (w_date r));
           ("duration", json_opt JsonInt (w_duration r));
           ("calories", json_opt JsonInt (w_calories r))].

Definition listWorkouts : M json :=
  fun s => (Ok (JsonArr (map workout_json (select_workouts s))), s).

(* ------------------------------------------------------------------ *)
(** ** GET /api/stats *)

(** *** [date('now', '-7 days')] *)

(** The civil date of a day number (days since 1970-01-01, UTC) in the
    proleptic Gregorian calendar, as (year, month, day). *)
Definition civil_from_days (day : Z) : Z * Z * Z :=
  let z := day + 719468 in
  let era := z / 146097 in
  let doe := z - era * 146097 in
  let yoe := (doe - doe / 1460 + doe / 36524 - doe / 146096) / 365 in
  let doy := doe - (365 * yoe + yoe / 4 - yoe / 100) in
  let mp := (5 * doy + 2) / 153 in
  let d := doy - (153 * mp + 2) / 5 + 1 in
  let m := if (mp <? 10)%Z then mp + 3 else mp - 9 in
  let y := yoe + era * 400 + (if (m <=? 2)%Z then 1 else 0) in
  (y, m, d).

Definition digit (n : Z) : ascii :=
  ascii_of_nat (48 + Z.to_nat (n mod 10)).

Definition pad2 (n : Z) : string :=
  String (digit (n / 10)) (String (digit n) EmptyString).

Definition pad4 (n : Z) : string :=
  String (digit (n / 1000)) (String (digit (n / 100)) (pad2 n)).

(** [YYYY-MM-DD], the text SQLite's [date()] returns. *)
Definition iso_date (day : Z) : string :=
  let '(y, m, d) := civil_from_days day in
  (pad4 y ++ "-" ++ pad2 m ++ "-" ++ pad2 d)%string.

(** [date('now', '-7 days')] when the server's clock reads day [today]. *)
Definition date_now_minus_7_days (today : Z) : string :=
  iso_date (today - 7).

(** *** The aggregate query *)

Record stat_row : Type := mkStat {
  st_date : string;
  st_calories : option Z
}.

(** The signed 64-bit integers. *)
Definition int64 (z : Z) : bool :=
  (- 2 ^ 63 <=? z) && (z <=? 2 ^ 63 - 1).

(** The accumulator of SQLite's [sum()] over INTEGER and NULL cells: the
    running sum, the number of values seen, and whether an addition left
    the 64-bit range. *)
Record SumCtx : Type := mkSumCtx {
  iSum : Z;
  cnt : nat;
  ovrfl : bool
}.

(** One row: NULL is skipped; an addition that overflows is not carried
    out and is remembered. *)
Definition sumStep (p : SumCtx) (v : option Z) : SumCtx :=
  match v with
  | None => p
  | Some x =>
      if ovrfl p then mkSumCtx (iSum p) (S (cnt p)) true
      else if int64 (iSum p + x) then mkSumCtx (iSum p + x) (S (cnt p)) false
      else mkSumCtx (iSum p) (S (cnt p)) true
  end.

(** The end of a group: NULL when no value was seen, the error
    "integer overflow" when an addition overflowed, else the sum. *)
Definition sumFinalize (p : SumCtx) : result (option Z) :=
  match cnt p with
  | O => Ok None
  | S _ => if ovrfl p then Err IntegerOverflow else Ok (Some (iSum p))
  end.

(** [SUM] over the cells of a group, in the order the rows arrive. *)
Definition sql_SUM (vals : list (option Z)) : result (option Z) :=
  sumFinalize (fold_left sumStep vals (mkSumCtx 0 0 false)).

(** A group of [GROUP BY date]: its date and the [calories] cells of its
    rows, in the order of the rows. *)
Record date_group : Type := mkGroup {
  g_date : string;
  g_values : list (option Z)
}.

(** [GROUP BY date] over rows already sorted on [date]: a row joins the
    group next to it when the dates are equal and opens a group otherwise. *)
Fixpoint group_by_date (rows : list workout_row) : list date_group :=
  match rows with
  | [] => []
  | r :: rest =>
      match group_by_date rest with
      | g :: gs =>
          if (w_date r =? g_date g)%string
          then mkGroup (g_date g) (w_calories r :: g_values g) :: gs
          else mkGroup (w_date r) [w_calories r] :: g :: gs
      | [] => [mkGroup (w_date r) [w_calories r]]
      end
  end.

(** One result row per group; an error in a group ends the statement. *)
Fixpoint aggregate (groups : list date_group) : result (list stat_row) :=
  match groups with
  | [] => Ok []
  | g :: rest =>
      match sql_SUM (g_values g) with
      | Err e => Err e
      | Ok v =>
          match aggregate rest with
          | Ok out => Ok (mkStat (g_date g) v :: out)
          | Err e => Err e
          end
      end
  end.

Definition date_asc (a b : workout_row) : bool :=
  (w_date a <=? w_date b)%string.

(** [WHERE date >= ?] on text. *)
Definition on_or_after (cutoff : string) (r : workout_row) : bool :=
  (cutoff <=? w_date r)%string.

(** [SELECT date, SUM(calories) as calories FROM workouts
     WHERE date >= date('now', '-7 days') GROUP BY date ORDER BY date ASC]. *)
Definition select_stats (today : Z) (s : store) : result (list stat_row) :=
  aggregate
    (group_by_date
       (order_by date_asc
          (filter (on_or_after (date_now_minus_7_days today)) (workouts s)))).

(** A 64-bit integer column read as a JavaScript number: the nearest
    double (53 significant bits, ties to the even one), given as the
    integer it stands for. *)
Definition int64_to_double (z : Z) : Z :=
  let a := Z.abs z in
  if a <? 2 ^ 53 then z
  else
    let e := Z.log2 a - 52 in
    let q := a / 2 ^ e in
    let r := a mod 2 ^ e in
    let half := 2 ^ (e - 1) in
    let q' := if (half <? r) || ((r =? half) && Z.odd q) then q + 1 else q in
    Z.sgn z * (q' * 2 ^ e).

Definition stat_json (r : stat_row) : json :=
  JsonObj [("date", JsonStr (st_date r));
           ("calories",
            json_opt JsonInt (option_map int64_to_double (st_calories r)))].

(** [.all()] throws what the statement fails with, and the handler sends
    nothing then. *)
Definition getStats (today : Z) : M json :=
  fun s =>
    match select_stats today s with
    | Ok out => (Ok (JsonArr (map stat_json out)), s)
    | Err e => (Err e, s)
    end.

(* ------------------------------------------------------------------ *)
(** ** The server as a transition system *)

(** What can happen to the database file once the process has started:
    one of the five routes is served, or the process is started again and
    re-runs the start-up script. *)
Inductive event : Type :=
| GetProfile : event
| PostProfile : ProfileBody -> event
| GetWorkouts : event
| PostWorkouts : WorkoutBody -> event
| GetStats : Z -> event
| Restart : event.

Definition handle (ev : event) : M json :=
  match ev with
  | GetProfile => getProfile
  | PostProfile b => updateProfile b
  | GetWorkouts => listWorkouts
  | PostWorkouts b => createWorkout b
  | GetStats today => getStats today
  | Restart => fun s => (Ok JsonNone, init (Some s))
  end.

(** Serve a sequence of events; the responses come back oldest first. *)
Fixpoint run (evs : list event) (s : store) : list (result json) * store :=
  match evs with
  | [] => ([], s)
  | ev :: rest =>
      let '(r, s') := handle ev s in
      let '(rs, s'') := run rest s' in
      (r :: rs, s'')
  end.

(* ------------------------------------------------------------------ *)
(** ** Vocabulary of the properties *)

(** The answer [{id}] of POST /api/workouts. *)
Definition id_response (id : Z) : json := JsonObj [("id", JsonInt id)].

(** An array element the [exercises] table takes: an object with a name. *)
Definition accepted (ex : option ExerciseBody) : bool :=
  match ex with
  | Some e =>
      match bind_param (eb_name e) with
      | Some _ => true
      | None => false
      end
  | None => false
  end.

(** The elements in front of the first one that is not accepted. *)
Fixpoint accepted_prefix (l : list (option ExerciseBody))
  : list (option ExerciseBody) :=
  match l with
  | [] => []
  | ex :: rest => if accepted ex then ex :: accepted_prefix rest else []
  end.

(** The elements the handler's loop visits. *)
Definition supplied (b : WorkoutBody) : list (option ExerciseBody) :=
  if truthy (wb_exercises b) && isArray (wb_exercises b)
  then elements (wb_exercises b)
  else [].

(** A body on which no statement of the handler fails. *)
Definition accepted_body (b : WorkoutBody) : bool :=
  match bind_param (wb_name b), bind_param (wb_date b) with
  | Some _, Some _ => forallb accepted (supplied b)
  | _, _ => false
  end.

(** Row [r] holds element [ex] and points to workout [wid]. *)
Definition stored_as (wid : Z) (ex : option ExerciseBody) (r : exercise_row)
  : Prop :=
  match ex with
  | Some e =>
      e_workout_id r = wid /\
      Some (e_name r) = bind_param (eb_name e) /\
      e_sets r = bind_param (eb_sets e) /\
      e_reps r = bind_param (eb_reps e) /\
      e_weight r = bind_param (eb_weight e)
  | None => False
  end.

(** The exercise rows whose [workout_id] is [id]. *)
Definition of_workout (id : Z) (e : exercise_row) : bool :=
  (e_workout_id e =? id)%Z.

(** What holds of the file after any history: one profile row, with key
    1; workout identifiers increasing down the table and bounded by the
    table's counter; exercise rows pointing at identifiers handed out. *)
Record store_ok (s : store) : Prop := mkStoreOk {
  ok_profile : exists r, user_profile s = [r] /\ p_id r = 1;
  ok_ids : StronglySorted Z.lt (map w_id (workouts s));
  ok_seq : Forall (fun r => w_id r <= workouts_seq s) (workouts s);
  ok_refs : Forall (fun e => e_workout_id e <= workouts_seq s) (exercises s)
}.

(** The rows logged on date [d]. *)
Definition dated (d : string) (r : workout_row) : bool :=
  (w_date r =? d)%string.

(** A calorie count with NULL read as nothing burnt. *)
Definition or_zero (v : option Z) : Z :=
  match v with
  | Some x => x
  | None => 0
  end.

(** Calories of a column added up. *)
Definition total (vs : list (option Z)) : Z :=
  fold_right (fun v acc => or_zero v + acc) 0 vs.














(** The exercise of the specification's scenario. *)
Definition squat : ExerciseBody :=
  mkExerciseBody (Value "Squat") (Value 4) (Value 8) (Value (80 # 1)).

(** An exercise sent with [name: null]. *)
Definition nameless : ExerciseBody :=
  mkExerciseBody JsNull (Value 3) (Value 10) (Value (20 # 1)).

(** The workout of the specification's scenario, with [exercises] left
    open. *)
Definition leg_day (exs : jsval) : WorkoutBody :=
  mkWorkoutBody (Value "Leg Day") (Value "2024-06-01") (Value 45) (Value 300)
    exs.

(** A second workout on the date of [leg_day]. *)
Definition push_day : WorkoutBody :=
  mkWorkoutBody (Value "Push Day") (Value "2024-06-01") (Value 60) (Value 450)
    JUndefined.

(** A run logged on date [d]. *)
Definition on_date (d : string) : WorkoutBody :=
  mkWorkoutBody (Value "Run") (Value d) (Value 30) (Value 250) JUndefined.

(** The identifiers 1, 2, ..., n. *)
Definition one_to (n : nat) : list Z := map Z.of_nat (seq 1 n).

(** Both AUTOINCREMENT tables hold the identifiers 1 to n, top to bottom,
    and their counters stand at n. *)
Definition numbered (s : store) : Prop :=
  map w_id (workouts s) = one_to (length (workouts s)) /\
  workouts_seq s = Z.of_nat (length (workouts s)) /\
  map e_id (exercises s) = one_to (length (exercises s)) /\
  exercises_seq s = Z.of_nat (length (exercises s)).

(** Every exercise row points to a row of [workouts]. *)
Definition refs_resolve (s : store) : Prop :=
  Forall (fun e => In (e_workout_id e) (map w_id (workouts s))) (exercises s).

(** An array element on which [insertExercise.run] throws. *)
Definition rejected (ex : option ExerciseBody) : bool := negb (accepted ex).

(** What the loop over the exercises ends with: the error of the first
    element it cannot insert. *)
Definition loop_outcome (l : list (option ExerciseBody)) : result unit :=
  match find rejected l with
  | None => Ok tt
  | Some None => Err TypeError
  | Some (Some _) => Err (NotNullConstraint "exercises.name")
  end.

(** Numbers added up. *)
Definition sumZ (l : list Z) : Z := fold_right Z.add 0 l.

(** The absolute values of the numbers added up: a bound on every sum of
    some of them. *)
Definition magnitude (l : list Z) : Z := sumZ (map Z.abs l).

(** The values of [i] the loop of the [stats] memo runs through. *)
Definition loop_indices : list Z := [6; 5; 4; 3; 2; 1; 0].

(* ------------------------------------------------------------------ *)
(** ** The browser side *)

(** A JavaScript number as far as it is followed: an integer, or a double
    that came out of an addition the bounds below do not cover. *)
Inductive jsnum : Type :=
| Exact : Z -> jsnum
| Rounded : jsnum.

(** The integers up to which every integer is a double. *)
Definition safe_integer (z : Z) : bool := Z.abs z <=? 2 ^ 53.

(** [a + b] on doubles: the sum of two integers is exact when both and
    their sum are of magnitude at most 2^53. *)
Definition js_plus (a : jsnum) (b : Z) : jsnum :=
  match a with
  | Exact x =>
      if safe_integer x && safe_integer b && safe_integer (x + b)
      then Exact (x + b)
      else Rounded
  | Rounded => Rounded
  end.

(** [Dashboard]: [workouts.slice(0, 3)]. *)
Definition recentWorkouts {A : Type} (workouts : list A) : list A :=
  firstn 3 workouts.

(** The client that talks to the REST routes. *)
Module ApiClient.

(** [acc + w.calories] where the column may have come back [null]:
    [null] counts as 0 and leaves [acc] as it is. *)
Definition js_add (acc : jsnum) (v : option Z) : jsnum :=
  match v with
  | None => acc
  | Some b => js_plus acc b
  end.

(** [Dashboard]: [workouts.reduce((acc, w) => acc + w.calories, 0)] over
    the rows GET /api/workouts returned. *)
Definition totalCalories (workouts : list workout_row) : jsnum :=
  fold_left (fun acc w => js_add acc (w_calories w)) workouts (Exact 0).

(** [Dashboard]: [workouts.reduce((acc, w) => acc + w.duration, 0)]. *)
Definition totalDuration (workouts : list workout_row) : jsnum :=
  fold_left (fun acc w => js_add acc (w_duration w)) workouts (Exact 0).

(** The state of the form of [Workouts]; a number field holds what
    [parseInt] made of the input, [None] when that is [NaN]. *)
Record WorkoutForm : Type := mkWorkoutForm {
  nw_name : string;
  nw_duration : option Z;
  nw_calories : option Z;
  nw_date : string
}.

(** [JSON.stringify] writes [NaN] as [null]. *)
Definition stringify_number (n : option Z) : field Z :=
  match n with
  | Some z => Value z
  | None => JsNull
  end.

(** [handleAdd]: nothing is sent while the name is empty; otherwise the
    form goes out as the body of POST /api/workouts. *)
Definition handleAdd (newWorkout : WorkoutForm) : option WorkoutBody :=
  if (nw_name newWorkout =? "")%string then None
  else Some (mkWorkoutBody (Value (nw_name newWorkout))
               (Value (nw_date newWorkout))
               (stringify_number (nw_duration newWorkout))
               (stringify_number (nw_calories newWorkout))
               JUndefined).

End ApiClient.

(** The client that keeps profile and workouts in [localStorage]. *)
Module LocalClient.

(** An element of the [workouts] state. *)
Record Workout : Type := mkWorkout {
  id : Z;
  name : string;
  date : string;
  duration : Z;
  calories : Z
}.

(** The state of the form of [Workouts]; here the number fields are
    [parseInt(...) || 0], always a number. *)
Record WorkoutForm : Type := mkWorkoutForm {
  nw_name : string;
  nw_duration : Z;
  nw_calories : Z;
  nw_date : string
}.

Record DailyStat : Type := mkDailyStat {
  ds_date : string;
  ds_calories : jsnum
}.

(** [handleAdd], with [now] the value of [Date.now()]: the new workout
    goes in front. *)
Definition handleAdd (now : Z) (newWorkout : WorkoutForm)
    (workouts : list Workout) : list Workout :=
  if (nw_name newWorkout =? "")%string then workouts
  else mkWorkout now (nw_name newWorkout) (nw_date newWorkout)
         (nw_duration newWorkout) (nw_calories newWorkout) :: workouts.

(** [handleDelete], with [confirmed] the answer to the [confirm] dialog. *)
Definition handleDelete (confirmed : bool) (i : Z) (workouts : list Workout)
  : list Workout :=
  if confirmed then filter (fun w => negb (id w =? i)%Z) workouts
  else workouts.

(** [Dashboard]: the two sums. *)
Definition totalCalories (workouts : list Workout) : jsnum :=
  fold_left (fun acc w => js_plus acc (calories w)) workouts (Exact 0).

Definition totalDuration (workouts : list Workout) : jsnum :=
  fold_left (fun acc w => js_plus acc (duration w)) workouts (Exact 0).

Section Stats.

(** [dateStr i] is the text [d.toISOString().split('T')[0]] yields in the
    iteration for [i], whatever the clock and the time zone make of it. *)
Variable dateStr : Z -> string.

(** [workouts.filter(w => w.date === dateStr)
             .reduce((acc, w) => acc + w.calories, 0)]. *)
Definition dayCalories (d : string) (workouts : list Workout) : jsnum :=
  fold_left (fun acc w => js_plus acc (calories w))
    (filter (fun w => (date w =? d)%string) workouts) (Exact 0).

(** [for (let i = 6; i >= 0; i--) { ...; last7Days.push(...) }]; the loop
    ends on its own test, [fuel] only bounds the recursion. *)
Fixpoint stats_loop (fuel : nat) (i : Z) (workouts : list Workout)
    (last7Days : list DailyStat) : list DailyStat :=
  match fuel with
  | O => last7Days
  | S fuel' =>
      if (0 <=? i)%Z
      then stats_loop fuel' (i - 1) workouts
             (last7Days ++
                [mkDailyStat (dateStr i) (dayCalories (dateStr i) workouts)])
      else last7Days
  end.

(** The [stats] memo of [App]. *)
Definition stats (workouts : list Workout) : list DailyStat :=
  stats_loop 8 6 workouts [].

End Stats.

End LocalClient.

(** The date texts of the loop in a browser whose local time is UTC, on
    day number [today]. *)
Definition utc_dateStr (today : Z) (i : Z) : string := iso_date (today - i).

(** Two workouts as the local client stores them. *)
Definition local_run : LocalClient.Workout :=
  LocalClient.mkWorkout 1718000000000 "Run" "2024-06-10" 30 250.

Definition local_old_run : LocalClient.Workout :=
  LocalClient.mkWorkout 1710000000000 "Run" "2024-03-07" 30 250.

Definition local_form : LocalClient.WorkoutForm :=
  LocalClient.mkWorkoutForm "Leg Day" 45 300 "2024-06-09".

(** The calories of the workouts with date text [d], as an integer. *)
Definition day_total (d : string) (ws : list LocalClient.Workout) : Z :=
  sumZ (map LocalClient.calories
          (filter (fun w => (LocalClient.date w =? d)%string) ws)).

(** A followed number raised by [c]. *)
Definition raise (c : Z) (n : jsnum) : jsnum :=
  match n with
  | Exact z => Exact (z + c)
  | Rounded => Rounded
  end.

(* ------------------------------------------------------------------ *)
(** * Properties *)

(** ** Bytewise order on text *)

Module TextOrder.

Lemma ascii_compare_refl (a : ascii) : Ascii.compare a a = Eq.
Proof. unfold Ascii.compare. apply N.compare_refl. Qed.

Lemma ascii_compare_lt_trans (a b c : ascii) :
  Ascii.compare a b = Lt -> Ascii.compare b c = Lt -> Ascii.compare a c = Lt.
Proof.
  unfold Ascii.compare. rewrite !N.compare_lt_iff. apply N.lt_trans.
Qed.

Lemma compare_refl (s : string) : String.compare s s = Eq.
Proof.
  induction s as [|a s IH]; simpl; [reflexivity|].
  now rewrite ascii_compare_refl.
Qed.

Lemma compare_lt_trans (s1 : string) :
  forall s2 s3,
    String.compare s1 s2 = Lt -> String.compare s2 s3 = Lt ->
    String.compare s1 s3 = Lt.
Proof.
  induction s1 as [|a s1 IH]; intros [|b s2] [|c s3]; simpl;
    try discriminate; try reflexivity.
  destruct (Ascii.compare a b) eqn:Hab; try discriminate;
    destruct (Ascii.compare b c) eqn:Hbc; try discriminate; intros H1 H2.
  - apply Ascii.compare_eq_iff in Hab, Hbc. subst.
    rewrite ascii_compare_refl. eapply IH; eassumption.
  - apply Ascii.compare_eq_iff in Hab. subst. now rewrite Hbc.
  - apply Ascii.compare_eq_iff in Hbc. subst. now rewrite Hab.
  - now rewrite (ascii_compare_lt_trans _ _ _ Hab Hbc).
Qed.

Lemma leb_refl (s : string) : (s <=? s)%string = true.
Proof. unfold String.leb. now rewrite compare_refl. Qed.

Lemma leb_spec (s1 s2 : string) :
  (s1 <=? s2)%string = true <-> String.compare s1 s2 = Lt \/ s1 = s2.
Proof.
  unfold String.leb. split.
  - destruct (String.compare s1 s2) eqn:H; try discriminate; intros _.
    + right. now apply String.compare_eq_iff.
    + now left.
  - intros [H | ->]; [now rewrite H | now rewrite compare_refl].
Qed.

Lemma leb_trans (s1 s2 s3 : string) :
  (s1 <=? s2)%string = true -> (s2 <=? s3)%string = true ->
  (s1 <=? s3)%string = true.
Proof.
  rewrite !leb_spec. intros [H1 | ->] [H2 | ->]; auto.
  left. eapply compare_lt_trans; eassumption.
Qed.

(** [s1 <= s2] fails exactly when [s2 < s1]. *)
Lemma leb_false (s1 s2 : string) :
  (s1 <=? s2)%string = false <-> (s2 <? s1)%string = true.
Proof.
  unfold String.leb, String.ltb. rewrite (String.compare_antisym s2 s1).
  destruct (String.compare s1 s2); simpl; split; congruence.
Qed.





End TextOrder.

(** ** The sorter: permutation, order, stability *)

Section OrderByFacts.

Variable A : Type.
Variable precedes : A -> A -> bool.

Lemma insert_row_perm (x : A) (l : list A) :
  Permutation (insert_row precedes x l) (x :: l).
Proof.
  induction l as [|y l IH]; simpl; [reflexivity|].
  destruct (precedes x y); [reflexivity|].
  rewrite IH. apply perm_swap.
Qed.

Lemma order_by_perm (l : list A) : Permutation (order_by precedes l) l.
Proof.
  induction l as [|x l IH]; simpl; [reflexivity|].
  rewrite insert_row_perm. now constructor.
Qed.

Lemma order_by_length (l : list A) :
  length (order_by precedes l) = length l.
Proof. apply Permutation_length, order_by_perm. Qed.

(** A row never overtakes a row of its own class: the rows selected by
    [p] keep the order of the scan. *)
Lemma insert_row_filter (p : A -> bool) (x : A) (l : list A) :
  (forall y, p x = true -> p y = true -> precedes x y = true) ->
  filter p (insert_row precedes x l) = filter p (x :: l).
Proof.
  intros Hp. induction l as [|y l IH]; [reflexivity|].
  simpl insert_row. destruct (precedes x y) eqn:E; [reflexivity|].
  simpl in *. rewrite IH.
  destruct (p x) eqn:Px; [|reflexivity].
  destruct (p y) eqn:Py; [|reflexivity].
  rewrite (Hp y eq_refl Py) in E. discriminate.
Qed.

Lemma order_by_stable (p : A -> bool) (l : list A) :
  (forall x y, p x = true -> p y = true -> precedes x y = true) ->
  filter p (order_by precedes l) = filter p l.
Proof.
  intros Hp. induction l as [|x l IH]; [reflexivity|].
  simpl order_by. rewrite insert_row_filter by (intros; now apply Hp).
  simpl. now rewrite IH.
Qed.

Hypothesis precedes_total :
  forall a b, precedes a b = true \/ precedes b a = true.
Hypothesis precedes_trans :
  forall a b c, precedes a b = true -> precedes b c = true ->
                precedes a c = true.

Lemma insert_row_sorted (x : A) (l : list A) :
  StronglySorted (fun a b => precedes a b = true) l ->
  StronglySorted (fun a b => precedes a b = true) (insert_row precedes x l).
Proof.
  induction 1 as [|y l Hs IH Hy]; simpl.
  - repeat constructor.
  - destruct (precedes x y) eqn:E.
    + constructor; [now constructor|].
      constructor; [exact E|].
      eapply Forall_impl; [|exact Hy].
      intros z Hz. eapply precedes_trans; eassumption.
    + constructor; [exact IH|].
      eapply Permutation_Forall;
        [symmetry; apply insert_row_perm|].
      constructor; [|exact Hy].
      destruct (precedes_total x y) as [H | H]; [congruence | exact H].
Qed.

Lemma order_by_sorted (l : list A) :
  StronglySorted (fun a b => precedes a b = true) (order_by precedes l).
Proof.
  induction l as [|x l IH]; simpl; [constructor|].
  now apply insert_row_sorted.
Qed.

End OrderByFacts.

Lemma date_desc_total (a b : workout_row) :
  date_desc a b = true \/ date_desc b a = true.
Proof. unfold date_desc. apply String.leb_total. Qed.

Lemma date_desc_trans (a b c : workout_row) :
  date_desc a b = true -> date_desc b c = true -> date_desc a c = true.
Proof. unfold date_desc. intros H1 H2. eapply TextOrder.leb_trans; eassumption. Qed.



Lemma dated_iff (d : string) (r : workout_row) :
  dated d r = true <-> w_date r = d.
Proof. unfold dated. apply String.eqb_eq. Qed.

(** ** What [createWorkout] writes *)

Lemma accepted_prefix_all (l : list (option ExerciseBody)) :
  forallb accepted l = true -> accepted_prefix l = l.
Proof.
  induction l as [|ex l IH]; simpl; [reflexivity|].
  destruct (accepted ex); simpl; [|discriminate].
  intros H. now rewrite IH.
Qed.

Lemma insert_exercises_spec (wid : Z) (l : list (option ExerciseBody)) :
  forall s r s',
    insert_exercises wid l s = (r, s') ->
    workouts s' = workouts s /\
    workouts_seq s' = workouts_seq s /\
    user_profile s' = user_profile s /\
    (exists new,
        exercises s' = exercises s ++ new /\
        Forall2 (stored_as wid) (accepted_prefix l) new) /\
    (if forallb accepted l then r = Ok tt else exists e, r = Err e).
Proof.
  induction l as [|ex l IH]; intros s r s'.
  - simpl. unfold ret. intros [= <- <-]. repeat split; auto.
    exists []. rewrite app_nil_r. now split.
  - simpl insert_exercises. unfold bind at 1.
    destruct ex as [e|]; simpl insert_exercise; simpl accepted_prefix;
      simpl forallb; simpl accepted.
    + destruct (bind_param (eb_name e)) as [n|] eqn:En.
      * intros H. apply IH in H. simpl in H.
        destruct H as (Hw & Hq & Hp & (new & Hx & Hf) & Hr).
        repeat split; auto.
        eexists. split; [rewrite Hx, <- app_assoc; reflexivity|].
        simpl. constructor; [|exact Hf].
        simpl. rewrite En. repeat split; reflexivity.
      * intros [= <- <-]. repeat split; auto; [|eexists; reflexivity].
        exists []. rewrite app_nil_r. now split.
    + intros [= <- <-]. repeat split; auto; [|eexists; reflexivity].
      exists []. rewrite app_nil_r. now split.
Qed.

(** The full effect of the handler, failure included. *)
Lemma createWorkout_spec (b : WorkoutBody) (s : store) :
  forall r s',
    createWorkout b s = (r, s') ->
    user_profile s' = user_profile s /\
    match bind_param (wb_name b), bind_param (wb_date b) with
    | Some n, Some d =>
        let id := next_rowid (workouts_seq s) (max_workout_id (workouts s)) in
        workouts s' =
          workouts s ++
            [mkWorkout id n d (bind_param (wb_duration b))
               (bind_param (wb_calories b))] /\
        workouts_seq s' = id /\
        (exists new,
            exercises s' = exercises s ++ new /\
            Forall2 (stored_as id) (accepted_prefix (supplied b)) new) /\
        (if forallb accepted (supplied b)
         then r = Ok (id_response id)
         else exists e, r = Err e)
    | _, _ => s' = s /\ exists e, r = Err e
    end.
Proof.
  intros r s'. unfold createWorkout, bind at 1, insert_workout.
  destruct (bind_param (wb_name b)) as [n|];
    [destruct (bind_param (wb_date b)) as [d|]|];
    try (intros [= <- <-]; split; [reflexivity|];
         split; [reflexivity|eexists; reflexivity]).
  unfold bind at 1. fold (supplied b).
  set (id := next_rowid (workouts_seq s) (max_workout_id (workouts s))).
  set (s1 := mkStore _ id _ _ _).
  assert (Hs : (if truthy (wb_exercises b) && isArray (wb_exercises b)
                then insert_exercises id (elements (wb_exercises b))
                else ret tt) s1 = insert_exercises id (supplied b) s1).
  { unfold supplied.
    destruct (truthy (wb_exercises b) && isArray (wb_exercises b));
      reflexivity. }
  rewrite Hs.
  destruct (insert_exercises id (supplied b) s1) as [r1 s2] eqn:E.
  apply insert_exercises_spec in E.
  destruct E as (Hw & Hq & Hp & (new & Hx & Hf) & Hr).
  destruct r1 as [[]|e]; unfold ret; intros [= <- <-];
    rewrite Hw, Hq, Hp; (split; [reflexivity|]); cbn zeta;
    (split; [reflexivity|]); (split; [reflexivity|]);
    (split; [exists new; now split|]).
  - destruct (forallb accepted (supplied b)); [reflexivity|].
    destruct Hr as [e He]. discriminate.
  - destruct (forallb accepted (supplied b)); [discriminate|].
    eexists; reflexivity.
Qed.

(** ** Invariants of the database file *)

Lemma max_workout_id_ge (rows : list workout_row) :
  Forall (fun r => w_id r <= max_workout_id rows) rows.
Proof.
  induction rows as [|r rows IH]; simpl; constructor; [lia|].
  eapply Forall_impl; [|exact IH]. simpl. intros; lia.
Qed.

Lemma next_rowid_fresh (s : store) :
  workouts_seq s < next_rowid (workouts_seq s) (max_workout_id (workouts s)) /\
  Forall (fun r =>
            w_id r < next_rowid (workouts_seq s) (max_workout_id (workouts s)))
    (workouts s).
Proof.
  unfold next_rowid. split; [lia|].
  eapply Forall_impl; [|apply max_workout_id_ge]. simpl. intros; lia.
Qed.

Lemma sorted_snoc (l : list Z) (x : Z) :
  StronglySorted Z.lt l -> Forall (fun y => y < x) l ->
  StronglySorted Z.lt (l ++ [x]).
Proof.
  induction 1 as [|y l Hs IH Hy]; intros Hx; simpl.
  - repeat constructor.
  - inversion Hx; subst. constructor; [now apply IH|].
    apply Forall_app. split; [exact Hy|]. now repeat constructor.
Qed.

Lemma stored_as_workout_id (wid : Z) (l : list (option ExerciseBody))
    (new : list exercise_row) :
  Forall2 (stored_as wid) l new ->
  Forall (fun e => e_workout_id e = wid) new.
Proof.
  induction 1 as [|ex r l new H _ IH]; constructor; [|exact IH].
  destruct ex; simpl in H; [tauto | contradiction].
Qed.


Lemma init_fixed (s : store) :
  has_rowid 1 (user_profile s) = true -> init (Some s) = s.
Proof.
  unfold init, insert_or_ignore_profile. simpl p_id. now intros ->.
Qed.

Lemma init_fresh_ok : store_ok (init None).
Proof.
  split; simpl.
  - exists default_profile. now split.
  - constructor.
  - constructor.
  - constructor.
Qed.

Lemma createWorkout_ok (b : WorkoutBody) (s : store) :
  store_ok s -> store_ok (snd (createWorkout b s)).
Proof.
  intros [Hp Hi Hq Hr].
  destruct (createWorkout b s) as [r s'] eqn:E.
  apply createWorkout_spec in E. destruct E as [Hprof E]. simpl.
  destruct (bind_param (wb_name b)) as [n|];
    [destruct (bind_param (wb_date b)) as [d|]|];
    try (destruct E as [-> _]; now split).
  cbn zeta in E. destruct E as (Hw & Hs & (new & Hx & Hf) & _).
  destruct (next_rowid_fresh s) as [Hlt Hall].
  split.
  - now rewrite Hprof.
  - rewrite Hw, map_app. simpl. apply sorted_snoc; [exact Hi|].
    rewrite Forall_map. exact Hall.
  - rewrite Hw, Hs. apply Forall_app. split.
    + eapply Forall_impl; [|exact Hall]. simpl. intros; lia.
    + repeat constructor. simpl. lia.
  - rewrite Hx, Hs. apply Forall_app. split.
    + eapply Forall_impl; [|exact Hr]. simpl. intros; lia.
    + eapply Forall_impl; [|eapply stored_as_workout_id; exact Hf].
      simpl. intros; lia.
Qed.

Lemma getStats_pure (today : Z) (s : store) : snd (getStats today s) = s.
Proof. unfold getStats. now destruct (select_stats today s). Qed.

Lemma getStats_no_id (today : Z) (s : store) (i : Z) :
  fst (getStats today s) <> Ok (id_response i).
Proof. unfold getStats. now destruct (select_stats today s). Qed.

Lemma handle_ok (ev : event) (s : store) :
  store_ok s -> store_ok (snd (handle ev s)).
Proof.
  intros H. destruct ev as [|b| |b|today|]; simpl.
  - unfold getProfile. now destruct (select_profile s).
  - destruct H as [(r & Hr & Hid) Hi Hq Hx]. split; simpl; auto.
    rewrite Hr. simpl. rewrite Hid. simpl. eexists. now split.
  - exact H.
  - now apply createWorkout_ok.
  - now rewrite getStats_pure.
  - rewrite init_fixed; [exact H|].
    destruct H as [(r & Hr & Hid) _ _ _]. rewrite Hr. unfold has_rowid.
    simpl. rewrite Hid. reflexivity.
Qed.

Lemma run_cons (ev : event) (evs : list event) (s : store) :
  run (ev :: evs) s =
    (fst (handle ev s) :: fst (run evs (snd (handle ev s))),
     snd (run evs (snd (handle ev s)))).
Proof.
  simpl. destruct (handle ev s) as [r s']. simpl.
  now destruct (run evs s') as [rs s''].
Qed.

Lemma run_ok (evs : list event) :
  forall s, store_ok s -> store_ok (snd (run evs s)).
Proof.
  induction evs as [|ev evs IH]; intros s H; [exact H|].
  rewrite run_cons. simpl. apply IH. now apply handle_ok.
Qed.

Lemma reachable_ok (evs : list event) :
  store_ok (snd (run evs (init None))).
Proof. apply run_ok, init_fresh_ok. Qed.

(* ------------------------------------------------------------------ *)
(** * The profile *)

Lemma reachable_profile (evs : list event) :
  exists r, user_profile (snd (run evs (init None))) = [r] /\ p_id r = 1.
Proof. apply (ok_profile (reachable_ok evs)). Qed.



Lemma getProfile_pure (s : store) : snd (getProfile s) = s.
Proof. unfold getProfile. now destruct (select_profile s). Qed.


(** C7. After any history, POST /api/profile answers [{success: true}] and
    leaves the single profile row holding the four bound values (a missing
    or null property is stored as NULL; no value is rejected for its range);
    the following GET /api/profile reads back those four values. *)
Theorem updateProfile_overwrites (evs : list event) (b : ProfileBody) :
  let s := snd (run evs (init None)) in
  let s' := snd (updateProfile b s) in
  fst (updateProfile b s) = Ok (JsonObj [("success", JsonBool true)]) /\
  user_profile s' =
    [mkProfile 1 (bind_param (pb_name b)) (bind_param (pb_weight b))
       (bind_param (pb_height b)) (bind_param (pb_goal b))] /\
  exists j,
    getProfile s' = (Ok j, s') /\
    get_field "name" j = Some (json_opt JsonStr (bind_param (pb_name b))) /\
    get_field "weight" j = Some (json_opt JsonReal (bind_param (pb_weight b))) /\
    get_field "height" j = Some (json_opt JsonReal (bind_param (pb_height b))) /\
    get_field "goal" j = Some (json_opt JsonStr (bind_param (pb_goal b))).
Proof.
  cbn zeta. destruct (reachable_profile evs) as (r & Hr & Hid).
  split; [reflexivity|].
  assert (Hu : user_profile (snd (updateProfile b (snd (run evs (init None))))) =
               [mkProfile 1 (bind_param (pb_name b)) (bind_param (pb_weight b))
                  (bind_param (pb_height b)) (bind_param (pb_goal b))]).
  { simpl. rewrite Hr. simpl. rewrite Hid. reflexivity. }
  split; [exact Hu|].
  unfold getProfile, select_profile. rewrite Hu. simpl.
  eexists. split; [reflexivity|]. repeat split; reflexivity.
Qed.

(** The scenario of the specification: Ana replaces the seeded profile. *)
Example updateProfile_ana :
  let b := mkProfileBody (Value "Ana") (Value (60 # 1)) (Value (165 # 1))
             (Value "Perder peso") in
  fst (getProfile (snd (updateProfile b (init None)))) =
    Ok (JsonObj [("id", JsonInt 1); ("name", JsonStr "Ana");
                 ("weight", JsonReal (60 # 1)); ("height", JsonReal (165 # 1));
                 ("goal", JsonStr "Perder peso")]).
Proof. reflexivity. Qed.

(** No range check: a negative weight is stored as sent. *)
Example updateProfile_negative_weight :
  let b := mkProfileBody (Value "Ana") (Value (-5 # 1)) (Value (165 # 1))
             (Value "Perder peso") in
  map p_weight (user_profile (snd (updateProfile b (init None)))) =
    [Some (-5 # 1)].
Proof. reflexivity. Qed.

(** C8, as stated, fails on the seeded store: the response of
    GET /api/profile has five properties, the first being [id]. *)
Lemma getProfile_four_fields_counterexample :
  exists j,
    fst (getProfile (init None)) = Ok j /\
    keys j = ["id"; "name"; "weight"; "height"; "goal"] /\
    keys j <> ["name"; "weight"; "height"; "goal"].
Proof.
  eexists. split; [reflexivity|]. split; [reflexivity|]. discriminate.
Qed.

(** C8, amended. After any history GET /api/profile returns the single
    profile row as an object with the five columns of the table, in order:
    [id] (always 1), [name], [weight], [height], [goal]; it writes nothing. *)
Theorem getProfile_returns_row (evs : list event) :
  let s := snd (run evs (init None)) in
  exists r,
    user_profile s = [r] /\
    getProfile s =
      (Ok (JsonObj [("id", JsonInt 1);
                    ("name", json_opt JsonStr (p_name r));
                    ("weight", json_opt JsonReal (p_weight r));
                    ("height", json_opt JsonReal (p_height r));
                    ("goal", json_opt JsonStr (p_goal r))]), s) /\
    keys (profile_json r) = ["id"; "name"; "weight"; "height"; "goal"].
Proof.
  cbn zeta. destruct (reachable_profile evs) as (r & Hr & Hid).
  exists r. split; [exact Hr|]. split; [|reflexivity].
  unfold getProfile, select_profile. rewrite Hr. simpl. rewrite Hid. simpl.
  unfold profile_json. now rewrite Hid.
Qed.

(* ------------------------------------------------------------------ *)
(** * Creating workouts *)

(** The scenario of the specification on the seeded store. *)
Example createWorkout_leg_day :
  createWorkout (leg_day (JArr [Some squat])) (init None) =
    (Ok (id_response 1),
     mkStore [mkWorkout 1 "Leg Day" "2024-06-01" (Some 45) (Some 300)] 1
       [mkExercise 1 1 "Squat" (Some 4) (Some 8) (Some (80 # 1))] 1
       [default_profile]).
Proof. reflexivity. Qed.

(** C2, as stated, fails: the second exercise is rejected by the NOT NULL
    constraint, the request ends in an error, and the workout row and the
    first exercise row are in the store all the same. *)
Lemma createWorkout_atomic_counterexample :
  let b := leg_day (JArr [Some squat; Some nameless]) in
  fst (createWorkout b (init None)) =
    Err (NotNullConstraint "exercises.name") /\
  workouts (snd (createWorkout b (init None))) =
    [mkWorkout 1 "Leg Day" "2024-06-01" (Some 45) (Some 300)] /\
  exercises (snd (createWorkout b (init None))) =
    [mkExercise 1 1 "Squat" (Some 4) (Some 8) (Some (80 # 1))] /\
  snd (createWorkout b (init None)) <> init None.
Proof.
  cbn zeta. repeat split; try reflexivity. discriminate.
Qed.

(** C2, amended. [createWorkout] runs its statements one by one, without a
    transaction.  When the workout insert is rejected (no name, or no date)
    the request fails and the store is unchanged.  Otherwise the workout row
    is written and stays; the supplied exercises are then written in order
    up to the first one the table rejects, and those rows stay too; the
    request succeeds when every supplied exercise was accepted and fails
    otherwise. *)
Theorem createWorkout_stepwise (b : WorkoutBody) (s : store) :
  let r := fst (createWorkout b s) in
  let s' := snd (createWorkout b s) in
  match bind_param (wb_name b), bind_param (wb_date b) with
  | Some n, Some d =>
      let id := next_rowid (workouts_seq s) (max_workout_id (workouts s)) in
      workouts s' =
        workouts s ++
          [mkWorkout id n d (bind_param (wb_duration b))
             (bind_param (wb_calories b))] /\
      (exists new,
          exercises s' = exercises s ++ new /\
          Forall2 (stored_as id) (accepted_prefix (supplied b)) new) /\
      (if forallb accepted (supplied b)
       then r = Ok (id_response id)
       else exists e, r = Err e)
  | _, _ => s' = s /\ exists e, r = Err e
  end.
Proof.
  cbn zeta. destruct (createWorkout b s) as [r s'] eqn:E.
  apply createWorkout_spec in E. destruct E as [_ E]. simpl.
  destruct (bind_param (wb_name b)) as [n|];
    [destruct (bind_param (wb_date b)) as [d|]|]; try exact E.
  cbn zeta in E. tauto.
Qed.

(** C9. Without a name (property missing, or null) the workout insert
    violates NOT NULL on [workouts.name]: the request fails and the store
    is exactly what it was, whatever the other properties are.  An empty
    name is a value: the row is written with name [""], and the request
    succeeds when no exercises are sent. *)
Theorem createWorkout_name_required :
  (forall date duration calories exs s,
      createWorkout (mkWorkoutBody Undefined date duration calories exs) s =
        (Err (NotNullConstraint "workouts.name"), s)) /\
  (forall date duration calories exs s,
      createWorkout (mkWorkoutBody JsNull date duration calories exs) s =
        (Err (NotNullConstraint "workouts.name"), s)) /\
  (forall d duration calories exs s,
      let b := mkWorkoutBody (Value "") (Value d) duration calories exs in
      let id := next_rowid (workouts_seq s) (max_workout_id (workouts s)) in
      workouts (snd (createWorkout b s)) =
        workouts s ++
          [mkWorkout id "" d (bind_param duration) (bind_param calories)]) /\
  (forall d duration calories s,
      let b := mkWorkoutBody (Value "") (Value d) duration calories
                 JUndefined in
      let id := next_rowid (workouts_seq s) (max_workout_id (workouts s)) in
      fst (createWorkout b s) = Ok (id_response id) /\
      exercises (snd (createWorkout b s)) = exercises s).
Proof.
  split; [reflexivity|]. split; [reflexivity|]. split.
  - intros d duration calories exs s. cbn zeta.
    destruct (createWorkout _ s) as [r s'] eqn:E.
    apply createWorkout_spec in E. simpl in E. simpl. tauto.
  - intros d duration calories s. cbn zeta. split; reflexivity.
Qed.

(** C10. [updateProfile] leaves both the [workouts] and the [exercises]
    table, counters included, as they were; [createWorkout] leaves the
    profile table as it was, on success and on failure alike. *)
Theorem handlers_disjoint :
  (forall b s,
      workouts (snd (updateProfile b s)) = workouts s /\
      workouts_seq (snd (updateProfile b s)) = workouts_seq s /\
      exercises (snd (updateProfile b s)) = exercises s /\
      exercises_seq (snd (updateProfile b s)) = exercises_seq s) /\
  (forall b s, user_profile (snd (createWorkout b s)) = user_profile s).
Proof.
  split.
  - intros b s. repeat split; reflexivity.
  - intros b s. destruct (createWorkout b s) as [r s'] eqn:E.
    apply createWorkout_spec in E. simpl. tauto.
Qed.

(** ** Identifiers handed out over a history *)

Lemma init_workouts_seq (s : store) :
  workouts_seq (init (Some s)) = workouts_seq s.
Proof.
  unfold init, insert_or_ignore_profile.
  now destruct (has_rowid (p_id default_profile) (user_profile s)).
Qed.

Lemma createWorkout_seq (b : WorkoutBody) (s : store) :
  workouts_seq s <= workouts_seq (snd (createWorkout b s)) /\
  forall i, fst (createWorkout b s) = Ok (id_response i) ->
            i = workouts_seq (snd (createWorkout b s)).
Proof.
  destruct (createWorkout b s) as [r s'] eqn:E.
  apply createWorkout_spec in E. destruct E as [_ E]. simpl.
  destruct (bind_param (wb_name b)) as [n|];
    [destruct (bind_param (wb_date b)) as [d|]|].
  - cbn zeta in E. destruct E as (_ & Hs & _ & Hr).
    destruct (next_rowid_fresh s) as [Hlt _]. split; [lia|].
    intros i Hi. destruct (forallb accepted (supplied b)).
    + rewrite Hr in Hi. injection Hi as Hi. lia.
    + destruct Hr as [e He]. congruence.
  - destruct E as [-> [e ->]]. split; [lia | discriminate].
  - destruct E as [-> [e ->]]. split; [lia | discriminate].
Qed.

Lemma handle_seq (ev : event) (s : store) :
  workouts_seq s <= workouts_seq (snd (handle ev s)) /\
  forall i, fst (handle ev s) = Ok (id_response i) ->
            i <= workouts_seq (snd (handle ev s)).
Proof.
  destruct ev as [|b| |b|today|]; simpl.
  - unfold getProfile. destruct (select_profile s); simpl;
      (split; [lia | discriminate]).
  - split; [lia | discriminate].
  - split; [lia | discriminate].
  - destruct (createWorkout_seq b s) as [H1 H2]. split; [exact H1|].
    intros i Hi. apply H2 in Hi. lia.
  - rewrite getStats_pure. split; [lia|].
    intros i Hi. now apply getStats_no_id in Hi.
  - rewrite init_workouts_seq. split; [lia | discriminate].
Qed.

Lemma run_seq (evs : list event) :
  forall s,
    workouts_seq s <= workouts_seq (snd (run evs s)) /\
    forall i, In (Ok (id_response i)) (fst (run evs s)) ->
              i <= workouts_seq (snd (run evs s)).
Proof.
  induction evs as [|ev evs IH]; intros s.
  - simpl. split; [lia | contradiction].
  - rewrite run_cons. simpl.
    destruct (handle_seq ev s) as [H1 H2].
    destruct (IH (snd (handle ev s))) as [H3 H4].
    split; [lia|]. intros i [Hi | Hi].
    + apply H2 in Hi. lia.
    + now apply H4.
Qed.

Lemma sorted_lt_NoDup (l : list Z) : StronglySorted Z.lt l -> NoDup l.
Proof.
  induction 1 as [|x l Hs IH Hx]; constructor; [|exact IH].
  intros Hin. rewrite Forall_forall in Hx. apply Hx in Hin. lia.
Qed.

Lemma accepted_body_inv (b : WorkoutBody) :
  accepted_body b = true ->
  exists n d,
    bind_param (wb_name b) = Some n /\ bind_param (wb_date b) = Some d /\
    forallb accepted (supplied b) = true.
Proof.
  unfold accepted_body.
  destruct (bind_param (wb_name b)) as [n|]; [|discriminate].
  destruct (bind_param (wb_date b)) as [d|]; [|discriminate].
  intros H. now exists n, d.
Qed.

(** C5. After any history, a body the store accepts gets an identifier
    above every identifier already handed out (every [{id}] answered so
    far, the table's counter, every row of the table); the table gains
    exactly the row of the submitted name, date, duration and calories
    under that identifier; and the listing afterwards is the listing before
    plus that one row, all identifiers distinct. *)
Theorem createWorkout_fresh_id (evs : list event) (b : WorkoutBody) :
  accepted_body b = true ->
  let s := snd (run evs (init None)) in
  exists id n d s',
    createWorkout b s = (Ok (id_response id), s') /\
    bind_param (wb_name b) = Some n /\
    bind_param (wb_date b) = Some d /\
    (forall i, In (Ok (id_response i)) (fst (run evs (init None))) -> i < id) /\
    workouts_seq s < id /\
    Forall (fun r => w_id r < id) (workouts s) /\
    let row := mkWorkout id n d (bind_param (wb_duration b))
                 (bind_param (wb_calories b)) in
    workouts s' = workouts s ++ [row] /\
    Permutation (select_workouts s') (row :: select_workouts s) /\
    NoDup (map w_id (select_workouts s')).
Proof.
  intros Hb. cbn zeta.
  destruct (accepted_body_inv b Hb) as (n & d & Hn & Hd & Hall).
  set (s := snd (run evs (init None))).
  destruct (createWorkout b s) as [r s'] eqn:E.
  pose proof (createWorkout_ok b (reachable_ok evs)) as Hok. fold s in Hok.
  rewrite E in Hok. simpl in Hok.
  apply createWorkout_spec in E. destruct E as [_ E].
  rewrite Hn, Hd, Hall in E. cbn zeta in E.
  destruct E as (Hw & Hs & _ & ->).
  destruct (next_rowid_fresh s) as [Hlt Hrows].
  eexists _, n, d, s'. split; [reflexivity|].
  repeat (split; [assumption || reflexivity|]).
  split.
  { intros i Hi. apply (proj2 (run_seq evs (init None))) in Hi.
    fold s in Hi. lia. }
  split; [exact Hlt|]. split; [exact Hrows|].
  split; [exact Hw|]. split.
  - unfold select_workouts. rewrite order_by_perm, Hw.
    rewrite <- Permutation_cons_append. constructor.
    symmetry. apply order_by_perm.
  - eapply Permutation_NoDup.
    + apply Permutation_map. symmetry. apply order_by_perm.
    + apply sorted_lt_NoDup, (ok_ids Hok).
Qed.

Lemma createWorkout_fresh_id_witness :
  accepted_body (leg_day (JArr [Some squat])) = true /\
  exists id s',
    createWorkout (leg_day (JArr [Some squat])) (init None) =
      (Ok (id_response id), s').
Proof.
  split; [reflexivity|].
  destruct (createWorkout_fresh_id [] (leg_day (JArr [Some squat])) eq_refl)
    as (id & n & d & s' & H & _).
  exists id, s'. exact H.
Defined.

(** ** Exercise rows of a new workout *)

Lemma supplied_array (b : WorkoutBody) (l : list (option ExerciseBody)) :
  wb_exercises b = JArr l -> supplied b = l.
Proof. unfold supplied. now intros ->. Qed.

Lemma supplied_not_array (b : WorkoutBody) :
  isArray (wb_exercises b) = false -> supplied b = [].
Proof. unfold supplied. intros ->. now rewrite andb_false_r. Qed.

Lemma filter_nothing (A : Type) (p : A -> bool) (l : list A) :
  Forall (fun x => p x = false) l -> filter p l = [].
Proof.
  induction 1 as [|x l Hx _ IH]; simpl; [reflexivity|]. now rewrite Hx.
Qed.

Lemma filter_everything (A : Type) (p : A -> bool) (l : list A) :
  Forall (fun x => p x = true) l -> filter p l = l.
Proof.
  induction 1 as [|x l Hx _ IH]; simpl; [reflexivity|].
  now rewrite Hx, IH.
Qed.

(** C6, as stated, fails: two exercises are supplied, the second with a
    null name; the workout row is written and exactly one exercise row points
    to it. *)
Lemma createWorkout_n_rows_counterexample :
  let b := leg_day (JArr [Some squat; Some nameless]) in
  let s' := snd (createWorkout b (init None)) in
  length (elements (wb_exercises b)) = 2%nat /\
  map w_id (workouts s') = [1] /\
  length (filter (of_workout 1) (exercises s')) = 1%nat.
Proof. cbn zeta. repeat split; reflexivity. Qed.

(** C6, amended. After any history, when the store accepts the body (name
    and date present, every array element an object with a name) the
    request succeeds with the new identifier, and the exercise rows pointing
    to that identifier afterwards are exactly the rows appended by the
    request: for an array of N elements, N rows holding the elements'
    values in the order supplied; for [exercises] missing, null or any
    value that is not an array, none. *)
Theorem createWorkout_exercise_rows (evs : list event) (b : WorkoutBody) :
  accepted_body b = true ->
  let s := snd (run evs (init None)) in
  exists id s' new,
    createWorkout b s = (Ok (id_response id), s') /\
    exercises s' = exercises s ++ new /\
    filter (of_workout id) (exercises s') = new /\
    length new = length (supplied b) /\
    match wb_exercises b with
    | JArr l => Forall2 (stored_as id) l new
    | _ => new = []
    end.
Proof.
  intros Hb. cbn zeta.
  destruct (accepted_body_inv b Hb) as (n & d & Hn & Hd & Hall).
  set (s := snd (run evs (init None))).
  destruct (createWorkout b s) as [r s'] eqn:E.
  apply createWorkout_spec in E. destruct E as [_ E].
  rewrite Hn, Hd, Hall in E. cbn zeta in E.
  destruct E as (_ & _ & (new & Hx & Hf) & ->).
  rewrite (accepted_prefix_all _ Hall) in Hf.
  destruct (next_rowid_fresh s) as [Hlt _].
  eexists _, s', new. split; [reflexivity|]. split; [exact Hx|].
  split; [|split].
  - rewrite Hx, filter_app, filter_nothing, filter_everything;
      [reflexivity | |].
    + eapply Forall_impl; [|eapply stored_as_workout_id; exact Hf].
      unfold of_workout. simpl. intros e ->. apply Z.eqb_refl.
    + eapply Forall_impl; [|exact (ok_refs (reachable_ok evs))].
      unfold of_workout. simpl. fold s. intros e He.
      apply Z.eqb_neq. lia.
  - symmetry. eapply Forall2_length. exact Hf.
  - destruct (wb_exercises b) as [| |t|z|t| |l] eqn:Ex;
      try (rewrite supplied_not_array in Hf by (now rewrite Ex);
           now inversion Hf).
    now rewrite (supplied_array b Ex) in Hf.
Qed.

Lemma createWorkout_exercise_rows_witness :
  accepted_body (leg_day (JArr [Some squat])) = true /\
  exists id s' new,
    createWorkout (leg_day (JArr [Some squat])) (init None) =
      (Ok (id_response id), s') /\
    filter (of_workout id) (exercises s') = new /\
    length new = 1%nat.
Proof.
  split; [reflexivity|].
  destruct (createWorkout_exercise_rows [] (leg_day (JArr [Some squat]))
              eq_refl)
    as (id & s' & new & H & _ & Hf & Hl & _).
  exists id, s', new. repeat split; assumption.
Defined.

(** Without [exercises], or with a value that is no array, nothing is
    written to the [exercises] table and the request succeeds. *)
Example createWorkout_no_exercises :
  map (fun v => createWorkout (leg_day v) (init None))
      [JUndefined; JNull; JStr "Squat"; JNum 3; JBool true; JObj] =
  repeat
    (Ok (id_response 1),
     mkStore [mkWorkout 1 "Leg Day" "2024-06-01" (Some 45) (Some 300)] 1
       [] 0 [default_profile]) 6.
Proof. reflexivity. Qed.

(* ------------------------------------------------------------------ *)
(** * Listing workouts *)

(** The example of the specification: the three dates come back latest
    first. *)
Example listWorkouts_three_dates :
  let s := snd (run [PostWorkouts (on_date "2024-01-01");
                     PostWorkouts (on_date "2024-01-03");
                     PostWorkouts (on_date "2024-01-02")] (init None)) in
  map w_date (select_workouts s) = ["2024-01-03"; "2024-01-02"; "2024-01-01"].
Proof. reflexivity. Qed.

(** C4, as stated, fails on ties: two workouts logged for the same date
    are listed in the order they were inserted, identifier 1 before
    identifier 2, not the reverse. *)
Lemma listWorkouts_ties_counterexample :
  let s := snd (run [PostWorkouts (leg_day JUndefined);
                     PostWorkouts push_day] (init None)) in
  map (fun r => (w_date r, w_id r)) (select_workouts s) =
    [("2024-06-01", 1); ("2024-06-01", 2)] /\
  map w_id (select_workouts s) <> [2; 1].
Proof. cbn zeta. split; [reflexivity | discriminate]. Qed.

Lemma sorted_ids_filter (p : workout_row -> bool) (l : list workout_row) :
  StronglySorted Z.lt (map w_id l) ->
  StronglySorted Z.lt (map w_id (filter p l)).
Proof.
  induction l as [|r l IH]; simpl; intros H; [constructor|].
  inversion H as [|x xs Hs Hx]; subst.
  destruct (p r); simpl; [|now apply IH].
  constructor; [now apply IH|].
  rewrite Forall_map in *. rewrite Forall_forall in *.
  intros y Hy. apply filter_In in Hy. now apply Hx.
Qed.

Lemma dated_date_desc (d : string) (x y : workout_row) :
  dated d x = true -> dated d y = true -> date_desc x y = true.
Proof.
  rewrite !dated_iff. unfold date_desc. intros -> ->.
  apply TextOrder.leb_refl.
Qed.

(** C4, amended. After any history GET /api/workouts returns every row of
    the table, each once, later dates before earlier ones (dates compared
    as text); the query names no second key, and the workouts of one date
    come in table order, that is by ascending identifier. *)
Theorem listWorkouts_sorted (evs : list event) :
  let s := snd (run evs (init None)) in
  listWorkouts s = (Ok (JsonArr (map workout_json (select_workouts s))), s) /\
  Permutation (select_workouts s) (workouts s) /\
  StronglySorted (fun a b => (w_date b <=? w_date a)%string = true)
    (select_workouts s) /\
  (forall d,
      filter (dated d) (select_workouts s) = filter (dated d) (workouts s)) /\
  (forall d,
      StronglySorted Z.lt (map w_id (filter (dated d) (select_workouts s)))).
Proof.
  cbn zeta. set (s := snd (run evs (init None))).
  assert (Hst : forall d, filter (dated d) (select_workouts s) =
                          filter (dated d) (workouts s)).
  { intros d. apply order_by_stable. apply dated_date_desc. }
  split; [reflexivity|].
  split; [apply order_by_perm|].
  split.
  { apply (order_by_sorted date_desc date_desc_total date_desc_trans). }
  split; [exact Hst|].
  intros d. rewrite Hst. apply sorted_ids_filter.
  apply (ok_ids (reachable_ok evs)).
Qed.

(* ------------------------------------------------------------------ *)
(** * Statistics *)

Lemma total_perm (l l' : list (option Z)) :
  Permutation l l' -> total l = total l'.
Proof.
  induction 1 as [|x l l' _ IH|x y l|l l' l'' _ IH1 _ IH2]; simpl; lia.
Qed.



(** ** [SUM] *)









(** ** [GROUP BY] *)










(** ** The query *)









(** Two workouts of 2^62 calories on one date: their sum is past the
    64-bit range and the request fails. *)
Example stats_integer_overflow :
  let heavy := mkWorkoutBody (Value "Run") (Value "2024-06-09") (Value 30)
                 (Value (2 ^ 62)) JUndefined in
  let s := snd (run [PostWorkouts heavy; PostWorkouts heavy] (init None)) in
  getStats 19884 s = (Err IntegerOverflow, s).
Proof. reflexivity. Qed.



(* ------------------------------------------------------------------ *)
(** * Further properties of the store *)

(** ** Identifiers without gaps *)

Lemma one_to_snoc (n : nat) :
  one_to (S n) = one_to n ++ [Z.of_nat n + 1].
Proof.
  unfold one_to. rewrite seq_S, map_app. simpl.
  do 2 f_equal. lia.
Qed.

Lemma one_to_bounded (n : nat) : Forall (fun i => i <= Z.of_nat n) (one_to n).
Proof.
  unfold one_to. rewrite Forall_map, Forall_forall.
  intros i Hi. apply in_seq in Hi. lia.
Qed.

Lemma max_workout_id_one_to (rows : list workout_row) :
  map w_id rows = one_to (length rows) ->
  Z.max (Z.of_nat (length rows)) (max_workout_id rows) =
  Z.of_nat (length rows).
Proof.
  intros H. pose proof (one_to_bounded (length rows)) as B.
  rewrite <- H, Forall_map in B. clear H.
  set (n := Z.of_nat (length rows)) in *.
  assert (Hn : 0 <= n) by (unfold n; lia). clearbody n.
  induction rows as [|r rows IH]; simpl; [lia|].
  inversion B; subst. specialize (IH H2). lia.
Qed.

Lemma max_exercise_id_one_to (rows : list exercise_row) :
  map e_id rows = one_to (length rows) ->
  Z.max (Z.of_nat (length rows)) (max_exercise_id rows) =
  Z.of_nat (length rows).
Proof.
  intros H. pose proof (one_to_bounded (length rows)) as B.
  rewrite <- H, Forall_map in B. clear H.
  set (n := Z.of_nat (length rows)) in *.
  assert (Hn : 0 <= n) by (unfold n; lia). clearbody n.
  induction rows as [|r rows IH]; simpl; [lia|].
  inversion B; subst. specialize (IH H2). lia.
Qed.

Lemma insert_workout_numbered (n d : field string) (du c : field Z)
    (s : store) :
  numbered s -> numbered (snd (insert_workout n d du c s)).
Proof.
  intros (Hw & Hq & He & Hx). unfold insert_workout.
  destruct (bind_param n) as [n'|]; [|now repeat split].
  destruct (bind_param d) as [d'|]; [|now repeat split].
  unfold next_rowid. rewrite Hq, (max_workout_id_one_to _ Hw).
  repeat split; simpl; try assumption.
  - rewrite map_app, length_app, Hw. simpl.
    rewrite Nat.add_1_r, one_to_snoc. reflexivity.
  - rewrite length_app. simpl. lia.
Qed.

Lemma insert_exercise_numbered (wid : Z) (ex : option ExerciseBody)
    (s : store) :
  numbered s -> numbered (snd (insert_exercise wid ex s)).
Proof.
  intros (Hw & Hq & He & Hx). unfold insert_exercise.
  destruct ex as [e|]; [|now repeat split].
  destruct (bind_param (eb_name e)) as [n|]; [|now repeat split].
  unfold next_rowid. rewrite Hx, (max_exercise_id_one_to _ He).
  repeat split; simpl; try assumption.
  - rewrite map_app, length_app, He. simpl.
    rewrite Nat.add_1_r, one_to_snoc. reflexivity.
  - rewrite length_app. simpl. lia.
Qed.

Lemma insert_exercises_numbered (wid : Z) (l : list (option ExerciseBody)) :
  forall s, numbered s -> numbered (snd (insert_exercises wid l s)).
Proof.
  induction l as [|ex l IH]; intros s H; [exact H|].
  simpl insert_exercises. unfold bind.
  pose proof (insert_exercise_numbered wid ex H) as H1.
  destruct (insert_exercise wid ex s) as [[[]|e] s1]; simpl in *.
  - now apply IH.
  - exact H1.
Qed.

Lemma createWorkout_numbered (b : WorkoutBody) (s : store) :
  numbered s -> numbered (snd (createWorkout b s)).
Proof.
  intros H. unfold createWorkout, bind.
  pose proof (insert_workout_numbered (wb_name b) (wb_date b)
                (wb_duration b) (wb_calories b) H) as H1.
  destruct (insert_workout _ _ _ _ s) as [[wid|e] s1]; simpl in *;
    [|exact H1].
  destruct (truthy (wb_exercises b) && isArray (wb_exercises b)).
  - pose proof (insert_exercises_numbered wid (elements (wb_exercises b)) H1)
      as H2.
    now destruct (insert_exercises wid _ s1) as [[[]|e] s2].
  - exact H1.
Qed.

Lemma init_tables (s : store) :
  workouts (init (Some s)) = workouts s /\
  exercises (init (Some s)) = exercises s /\
  exercises_seq (init (Some s)) = exercises_seq s.
Proof.
  unfold init, insert_or_ignore_profile.
  now destruct (has_rowid (p_id default_profile) (user_profile s)).
Qed.

Lemma handle_numbered (ev : event) (s : store) :
  numbered s -> numbered (snd (handle ev s)).
Proof.
  intros H. destruct ev as [|b| |b|today|]; simpl; try exact H.
  - now rewrite getProfile_pure.
  - now apply createWorkout_numbered.
  - now rewrite getStats_pure.
  - destruct (init_tables s) as (Hw & He & Hx). unfold numbered.
    now rewrite Hw, He, Hx, init_workouts_seq.
Qed.

(** X1. From a fresh file and after any history of requests and restarts,
    the workouts carry the identifiers 1, 2, ..., n in table order and the
    exercises 1, 2, ..., m: a rejected insert uses up no identifier, and
    the counters stand at n and m. *)
Theorem identifiers_without_gaps (evs : list event) :
  let s := snd (run evs (init None)) in
  map w_id (workouts s) = one_to (length (workouts s)) /\
  workouts_seq s = Z.of_nat (length (workouts s)) /\
  map e_id (exercises s) = one_to (length (exercises s)) /\
  exercises_seq s = Z.of_nat (length (exercises s)).
Proof.
  cbn zeta. change (numbered (snd (run evs (init None)))).
  assert (H0 : numbered (init None)) by (repeat split).
  revert H0. generalize (init None).
  induction evs as [|ev evs IH]; intros s H; [exact H|].
  rewrite run_cons. simpl. apply IH. now apply handle_numbered.
Qed.

(** ** Rows are only ever added *)

Lemma handle_appends (ev : event) (s : store) :
  exists nw ne,
    workouts (snd (handle ev s)) = workouts s ++ nw /\
    exercises (snd (handle ev s)) = exercises s ++ ne /\
    Forall (fun e => In (e_workout_id e) (map w_id nw)) ne.
Proof.
  assert (Hsame : forall s', workouts s' = workouts s ->
                             exercises s' = exercises s ->
            exists nw ne,
              workouts s' = workouts s ++ nw /\
              exercises s' = exercises s ++ ne /\
              Forall (fun e => In (e_workout_id e) (map w_id nw)) ne).
  { intros s' Hw He. exists [], []. rewrite !app_nil_r. now repeat split. }
  destruct ev as [|b| |b|today|]; simpl; try (now apply Hsame).
  - rewrite getProfile_pure. now apply Hsame.
  - destruct (createWorkout b s) as [r s'] eqn:E.
    apply createWorkout_spec in E. destruct E as [_ E]. simpl.
    destruct (bind_param (wb_name b)) as [n|];
      [destruct (bind_param (wb_date b)) as [d|]|];
      try (destruct E as [-> _]; now apply Hsame).
    cbn zeta in E. destruct E as (Hw & _ & (new & Hx & Hf) & _).
    eexists _, new. split; [exact Hw|]. split; [exact Hx|].
    eapply Forall_impl; [|eapply stored_as_workout_id; exact Hf].
    simpl. intros e ->. now left.
  - rewrite getStats_pure. now apply Hsame.
  - destruct (init_tables s) as (Hw & He & _). now apply Hsame.
Qed.

(** X2. No request and no restart ever deletes, rewrites or reorders a
    workout or an exercise row: after any history, from any store, both
    tables are what they were followed by the rows added since. *)
Theorem tables_append_only (evs : list event) (s : store) :
  exists nw ne,
    workouts (snd (run evs s)) = workouts s ++ nw /\
    exercises (snd (run evs s)) = exercises s ++ ne.
Proof.
  revert s. induction evs as [|ev evs IH]; intros s.
  - exists [], []. now rewrite !app_nil_r.
  - rewrite run_cons. simpl.
    destruct (handle_appends ev s) as (nw1 & ne1 & Hw1 & He1 & _).
    destruct (IH (snd (handle ev s))) as (nw2 & ne2 & Hw2 & He2).
    exists (nw1 ++ nw2), (ne1 ++ ne2).
    now rewrite Hw2, He2, Hw1, He1, !app_assoc.
Qed.

(** ** Exercises point to workouts *)

Lemma handle_refs (ev : event) (s : store) :
  refs_resolve s -> refs_resolve (snd (handle ev s)).
Proof.
  unfold refs_resolve. intros H.
  destruct (handle_appends ev s) as (nw & ne & -> & -> & Hn).
  rewrite map_app. apply Forall_app. split.
  - eapply Forall_impl; [|exact H]. simpl. intros e He.
    apply in_or_app. now left.
  - eapply Forall_impl; [|exact Hn]. simpl. intros e He.
    apply in_or_app. now right.
Qed.

(** X3. The handlers keep the foreign key the schema declares, whether or
    not the engine enforces it: after any history, failed requests
    included, every exercise row carries the identifier of a workout row
    that exists. *)
Theorem exercises_reference_workouts (evs : list event) :
  let s := snd (run evs (init None)) in
  Forall (fun e => In (e_workout_id e) (map w_id (workouts s))) (exercises s).
Proof.
  cbn zeta. change (refs_resolve (snd (run evs (init None)))).
  assert (H0 : refs_resolve (init None)) by constructor.
  revert H0. generalize (init None).
  induction evs as [|ev evs IH]; intros s H; [exact H|].
  rewrite run_cons. simpl. apply IH. now apply handle_refs.
Qed.

(** ** Which error a request ends with *)

Lemma insert_exercises_outcome (wid : Z) (l : list (option ExerciseBody)) :
  forall s, fst (insert_exercises wid l s) = loop_outcome l.
Proof.
  unfold loop_outcome.
  induction l as [|ex l IH]; intros s; [reflexivity|].
  simpl insert_exercises. unfold bind, rejected at 1. simpl find.
  destruct ex as [e|]; simpl; [|reflexivity].
  destruct (bind_param (eb_name e)) as [n|]; simpl; [|reflexivity].
  apply IH.
Qed.

(** X4. The answer of POST /api/workouts is decided by the body alone, in
    this order: a missing or null name fails on [workouts.name]; else a
    missing or null date fails on [workouts.date]; else the first array
    element that cannot be inserted decides, a [null] element with a
    TypeError and an object without name on [exercises.name]; else the
    request succeeds with the next identifier. *)
Theorem createWorkout_response (b : WorkoutBody) (s : store) :
  fst (createWorkout b s) =
    match bind_param (wb_name b), bind_param (wb_date b) with
    | None, _ => Err (NotNullConstraint "workouts.name")
    | Some _, None => Err (NotNullConstraint "workouts.date")
    | Some _, Some _ =>
        match loop_outcome (supplied b) with
        | Ok _ =>
            Ok (id_response
                  (next_rowid (workouts_seq s) (max_workout_id (workouts s))))
        | Err e => Err e
        end
    end.
Proof.
  unfold createWorkout, bind at 1, insert_workout.
  destruct (bind_param (wb_name b)) as [n|]; [|reflexivity].
  destruct (bind_param (wb_date b)) as [d|]; [|reflexivity].
  unfold bind at 1, supplied.
  destruct (truthy (wb_exercises b) && isArray (wb_exercises b)).
  - match goal with
    | |- context [insert_exercises ?w ?l ?s1] =>
        pose proof (insert_exercises_outcome w l s1) as H;
        destruct (insert_exercises w l s1) as [r s2]
    end.
    simpl in H. rewrite <- H. now destruct r as [[]|e].
  - reflexivity.
Qed.

(** ** Profile updates compose *)

(** X5. The last profile update wins: two updates in a row leave the store
    the second alone would have left, whatever the first wrote; in
    particular repeating an update changes nothing. *)
Theorem updateProfile_last_wins (b1 b2 : ProfileBody) (s : store) :
  snd (updateProfile b2 (snd (updateProfile b1 s))) =
  snd (updateProfile b2 s).
Proof.
  simpl. f_equal. rewrite map_map. apply map_ext. intros r. simpl.
  destruct (p_id r =? 1) eqn:E; simpl; now rewrite E.
Qed.

(** ** Statistics after an insert *)






(* ------------------------------------------------------------------ *)
(** * The client of the REST routes *)

Lemma sorted_app_cross (A : Type) (R : A -> A -> Prop) (l1 l2 : list A) :
  StronglySorted R (l1 ++ l2) ->
  Forall (fun a => Forall (R a) l2) l1.
Proof.
  induction l1 as [|a l1 IH]; simpl; intros H; [constructor|].
  inversion H as [|x xs Hs Hx]; subst.
  constructor; [|now apply IH].
  apply Forall_app in Hx. tauto.
Qed.

(** X7. Fed with the answer of GET /api/workouts, the dashboard's recent
    workouts are the first three of the listing (all of them when there
    are fewer), and no workout left out is dated later than one shown. *)
Theorem recentWorkouts_latest (s : store) :
  let listing := select_workouts s in
  listing = recentWorkouts listing ++ skipn 3 listing /\
  length (recentWorkouts listing) = Nat.min 3 (length (workouts s)) /\
  Forall (fun shown =>
            Forall (fun hidden =>
                      (w_date hidden <=? w_date shown)%string = true)
              (skipn 3 listing))
    (recentWorkouts listing).
Proof.
  cbn zeta. unfold recentWorkouts. split; [|split].
  - symmetry. apply firstn_skipn.
  - rewrite length_firstn. unfold select_workouts.
    now rewrite order_by_length.
  - apply (@sorted_app_cross _ (fun a b => date_desc a b = true)).
    rewrite firstn_skipn.
    apply (order_by_sorted date_desc date_desc_total date_desc_trans).
Qed.

Lemma sumZ_perm (l l' : list Z) : Permutation l l' -> sumZ l = sumZ l'.
Proof.
  induction 1 as [|x l l' _ IH|x y l|l l' l'' _ IH1 _ IH2]; simpl; lia.
Qed.

Lemma magnitude_nonneg (l : list Z) : 0 <= magnitude l.
Proof. unfold magnitude. induction l as [|x l IH]; simpl; lia. Qed.

Lemma safe_integer_le (z : Z) : Z.abs z <= 2 ^ 53 -> safe_integer z = true.
Proof. unfold safe_integer. apply Z.leb_le. Qed.

(** Within the bound the addition of doubles is the addition of
    integers. *)
Lemma js_plus_exact (a b : Z) :
  Z.abs a + Z.abs b <= 2 ^ 53 -> js_plus (Exact a) b = Exact (a + b).
Proof.
  intros H. unfold js_plus.
  rewrite !safe_integer_le by lia. reflexivity.
Qed.

Lemma fold_js_add (f : workout_row -> option Z) (l : list workout_row) :
  forall a,
    Z.abs a + magnitude (map or_zero (map f l)) <= 2 ^ 53 ->
    fold_left (fun acc w => ApiClient.js_add acc (f w)) l (Exact a) =
    Exact (a + total (map f l)).
Proof.
  induction l as [|w l IH]; intros a H.
  - simpl. f_equal. lia.
  - pose proof (magnitude_nonneg (map or_zero (map f l))) as Hn.
    simpl fold_left. simpl map in *.
    change (magnitude (or_zero (f w) :: map or_zero (map f l)))
      with (Z.abs (or_zero (f w)) + magnitude (map or_zero (map f l))) in H.
    change (total (f w :: map f l))
      with (or_zero (f w) + total (map f l)).
    destruct (f w) as [b|]; simpl or_zero in *.
    + change (ApiClient.js_add (Exact a) (Some b))
        with (js_plus (Exact a) b).
      rewrite js_plus_exact by lia. rewrite IH by lia. f_equal. lia.
    + change (ApiClient.js_add (Exact a) None) with (Exact a).
      rewrite IH by lia. reflexivity.
Qed.

(** X8. Fed with the answer of GET /api/workouts, the dashboard's total
    calories and total duration are the sums over every row of the table,
    a NULL column counting as 0, whatever the order of the listing,
    provided the absolute values of each column add up to at most 2^53,
    the range in which the sums of doubles are exact. *)
Theorem dashboard_totals (s : store) :
  magnitude (map or_zero (map w_calories (workouts s))) <= 2 ^ 53 ->
  magnitude (map or_zero (map w_duration (workouts s))) <= 2 ^ 53 ->
  ApiClient.totalCalories (select_workouts s) =
    Exact (total (map w_calories (workouts s))) /\
  ApiClient.totalDuration (select_workouts s) =
    Exact (total (map w_duration (workouts s))).
Proof.
  intros Hc Hd.
  assert (HP : Permutation (select_workouts s) (workouts s))
    by apply order_by_perm.
  unfold ApiClient.totalCalories, ApiClient.totalDuration.
  rewrite !fold_js_add.
  - simpl. split; f_equal; apply total_perm, Permutation_map, HP.
  - unfold magnitude in *.
    rewrite (sumZ_perm (Permutation_map Z.abs
               (Permutation_map or_zero (Permutation_map w_duration HP)))).
    simpl. exact Hd.
  - unfold magnitude in *.
    rewrite (sumZ_perm (Permutation_map Z.abs
               (Permutation_map or_zero (Permutation_map w_calories HP)))).
    simpl. exact Hc.
Qed.

Lemma dashboard_totals_witness :
  let s := snd (run [PostWorkouts (leg_day JUndefined);
                     PostWorkouts (on_date "2024-06-09")] (init None)) in
  magnitude (map or_zero (map w_calories (workouts s))) <= 2 ^ 53 /\
  magnitude (map or_zero (map w_duration (workouts s))) <= 2 ^ 53 /\
  ApiClient.totalCalories (select_workouts s) = Exact 550 /\
  ApiClient.totalDuration (select_workouts s) = Exact 75.
Proof.
  cbn zeta.
  set (s := snd (run [PostWorkouts (leg_day JUndefined);
                      PostWorkouts (on_date "2024-06-09")] (init None))).
  assert (Hc : magnitude (map or_zero (map w_calories (workouts s)))
               <= 2 ^ 53) by (vm_compute; discriminate).
  assert (Hd : magnitude (map or_zero (map w_duration (workouts s)))
               <= 2 ^ 53) by (vm_compute; discriminate).
  split; [exact Hc|]. split; [exact Hd|].
  exact (@dashboard_totals s Hc Hd).
Defined.

(** Past the bound the order of the listing shows: 2^53, 1 and 1 add up
    to a rounded double. *)
Example dashboard_totals_rounded :
  fold_left (fun acc w => ApiClient.js_add acc w) [Some (2 ^ 53); Some 1; Some 1]
    (Exact 0) = Rounded.
Proof. reflexivity. Qed.


(* ------------------------------------------------------------------ *)
(** * The client that keeps its data in the browser *)

Lemma fold_js_plus (A : Type) (f : A -> Z) (l : list A) :
  forall a,
    Z.abs a + magnitude (map f l) <= 2 ^ 53 ->
    fold_left (fun acc w => js_plus acc (f w)) l (Exact a) =
    Exact (a + sumZ (map f l)).
Proof.
  induction l as [|w l IH]; intros a H.
  - simpl. f_equal. lia.
  - pose proof (magnitude_nonneg (map f l)) as Hn.
    cbn [fold_left]. simpl map in *.
    change (magnitude (f w :: map f l))
      with (Z.abs (f w) + magnitude (map f l)) in H.
    change (sumZ (f w :: map f l)) with (f w + sumZ (map f l)).
    rewrite js_plus_exact by lia. rewrite IH by lia. f_equal. lia.
Qed.

Lemma magnitude_filter (A : Type) (f : A -> Z) (p : A -> bool) (l : list A) :
  magnitude (map f (filter p l)) <= magnitude (map f l).
Proof.
  unfold magnitude. induction l as [|w l IH]; simpl; [lia|].
  destruct (p w); simpl; lia.
Qed.

Lemma sumZ_add (A : Type) (f g : A -> Z) (l : list A) :
  sumZ (map (fun x => f x + g x) l) = sumZ (map f l) + sumZ (map g l).
Proof. induction l as [|x l IH]; simpl; lia. Qed.

Section LocalStats.

Variable dateStr : Z -> string.

Lemma dayCalories_exact (d : string) (ws : list LocalClient.Workout) :
  magnitude (map LocalClient.calories ws) <= 2 ^ 53 ->
  LocalClient.dayCalories d ws = Exact (day_total d ws).
Proof.
  intros H. unfold LocalClient.dayCalories, day_total.
  rewrite fold_js_plus; [reflexivity|].
  pose proof (magnitude_filter LocalClient.calories
                (fun w => (LocalClient.date w =? d)%string) ws).
  simpl. lia.
Qed.

Lemma day_total_cons (d : string) (w : LocalClient.Workout)
    (ws : list LocalClient.Workout) :
  day_total d (w :: ws) =
  (if (LocalClient.date w =? d)%string then LocalClient.calories w else 0) +
  day_total d ws.
Proof.
  unfold day_total. simpl.
  now destruct (LocalClient.date w =? d)%string.
Qed.

Lemma stats_unrolled (ws : list LocalClient.Workout) :
  LocalClient.stats dateStr ws =
  map (fun i => LocalClient.mkDailyStat (dateStr i)
                  (LocalClient.dayCalories (dateStr i) ws))
    loop_indices.
Proof. reflexivity. Qed.

Lemma stats_exact (ws : list LocalClient.Workout) :
  magnitude (map LocalClient.calories ws) <= 2 ^ 53 ->
  LocalClient.stats dateStr ws =
  map (fun i => LocalClient.mkDailyStat (dateStr i)
                  (Exact (day_total (dateStr i) ws)))
    loop_indices.
Proof.
  intros H. rewrite stats_unrolled. apply map_ext. intros i.
  now rewrite dayCalories_exact.
Qed.


Lemma count_once (d : string) (c : Z) (ds : list string) :
  NoDup ds ->
  sumZ (map (fun d' => if (d =? d')%string then c else 0) ds) =
  if existsb (String.eqb d) ds then c else 0.
Proof.
  induction 1 as [|d' ds Hn Hd IH]; simpl; [reflexivity|].
  rewrite IH. destruct (String.eqb_spec d d') as [-> | Hne]; simpl; [|lia].
  destruct (existsb (String.eqb d') ds) eqn:E; [|lia].
  apply existsb_exists in E. destruct E as (x & Hx & Hxe).
  apply String.eqb_eq in Hxe. subst. contradiction.
Qed.

Lemma day_totals_sum (ds : list string) (ws : list LocalClient.Workout) :
  NoDup ds ->
  sumZ (map (fun d => day_total d ws) ds) =
  sumZ (map LocalClient.calories
          (filter (fun w => existsb (String.eqb (LocalClient.date w)) ds)
             ws)).
Proof.
  intros Hn. induction ws as [|w ws IH].
  - simpl. induction ds as [|d ds IHd]; [reflexivity|].
    inversion Hn; subst. simpl. now rewrite IHd.
  - rewrite (map_ext _ _ (fun d => day_total_cons d w ws)).
    rewrite sumZ_add, IH, (count_once _ _ Hn). simpl.
    now destruct (existsb (String.eqb (LocalClient.date w)) ds).
Qed.

(** X11. When the seven date texts of the loop are pairwise different and
    the absolute values of the calories of all workouts add up to at most
    2^53, the seven entries of the [stats] memo hold integers that add up
    to the calories of exactly the workouts dated on one of those seven
    dates. *)
Theorem client_stats_total (ws : list LocalClient.Workout) :
  NoDup (map dateStr loop_indices) ->
  magnitude (map LocalClient.calories ws) <= 2 ^ 53 ->
  exists vals,
    map LocalClient.ds_calories (LocalClient.stats dateStr ws) =
      map Exact vals /\
    sumZ vals =
    sumZ (map LocalClient.calories
            (filter (fun w =>
                       existsb (String.eqb (LocalClient.date w))
                         (map dateStr loop_indices))
               ws)).
Proof.
  intros Hn H.
  exists (map (fun d => day_total d ws) (map dateStr loop_indices)).
  split.
  - rewrite (stats_exact ws H), !map_map. reflexivity.
  - now apply day_totals_sum.
Qed.

(** X13. While the absolute values of the calories of all workouts and of
    the form add up to at most 2^53, an add in the local client raises, in
    the [stats] memo, exactly the entries whose date text is the date of
    the form, each by the calories of the form; every other entry, and
    the dates, stay; an add with an empty name changes no entry. *)
Theorem local_add_stats (now : Z) (newWorkout : LocalClient.WorkoutForm)
    (ws : list LocalClient.Workout) :
  magnitude (map LocalClient.calories ws) +
    Z.abs (LocalClient.nw_calories newWorkout) <= 2 ^ 53 ->
  LocalClient.stats dateStr (LocalClient.handleAdd now newWorkout ws) =
  map (fun e =>
         if negb (LocalClient.nw_name newWorkout =? "")%string &&
            (LocalClient.nw_date newWorkout =? LocalClient.ds_date e)%string
         then LocalClient.mkDailyStat (LocalClient.ds_date e)
                (raise (LocalClient.nw_calories newWorkout)
                   (LocalClient.ds_calories e))
         else e)
    (LocalClient.stats dateStr ws).
Proof.
  intros H.
  pose proof (magnitude_nonneg (map LocalClient.calories ws)) as Hn.
  rewrite (stats_exact ws) by lia. rewrite map_map.
  unfold LocalClient.handleAdd.
  destruct (LocalClient.nw_name newWorkout =? "")%string; simpl negb.
  - rewrite (stats_exact ws) by lia. reflexivity.
  - rewrite stats_exact.
    + apply map_ext. intros i. simpl LocalClient.ds_date.
      rewrite day_total_cons. simpl.
      destruct (LocalClient.nw_date newWorkout =? dateStr i)%string; simpl;
        do 2 f_equal; lia.
    + unfold magnitude in *. simpl. lia.
Qed.

End LocalStats.


Lemma client_stats_total_witness :
  NoDup (map (utc_dateStr 19884) loop_indices) /\
  magnitude (map LocalClient.calories [local_run; local_old_run]) <= 2 ^ 53 /\
  exists vals,
    map LocalClient.ds_calories
      (LocalClient.stats (utc_dateStr 19884) [local_run; local_old_run]) =
      map Exact vals /\
    sumZ vals = 250.
Proof.
  assert (Hn : NoDup (map (utc_dateStr 19884) loop_indices)).
  { vm_compute.
    repeat (constructor; [simpl; intuition discriminate|]). constructor. }
  assert (H : magnitude (map LocalClient.calories [local_run; local_old_run])
              <= 2 ^ 53) by (vm_compute; discriminate).
  split; [exact Hn|]. split; [exact H|].
  destruct (@client_stats_total (utc_dateStr 19884)
              [local_run; local_old_run] Hn H) as (vals & Hv & Hs).
  exists vals. split; [exact Hv|]. rewrite Hs. reflexivity.
Defined.

Lemma local_add_stats_witness :
  magnitude (map LocalClient.calories [local_run; local_old_run]) +
    Z.abs (LocalClient.nw_calories local_form) <= 2 ^ 53 /\
  map LocalClient.ds_calories
    (LocalClient.stats (utc_dateStr 19884)
       (LocalClient.handleAdd 1718100000000 local_form
          [local_run; local_old_run])) =
  [Exact 0; Exact 0; Exact 0; Exact 0; Exact 0; Exact 300; Exact 250].
Proof.
  assert (H : magnitude (map LocalClient.calories [local_run; local_old_run]) +
              Z.abs (LocalClient.nw_calories local_form) <= 2 ^ 53)
    by (vm_compute; discriminate).
  split; [exact H|].
  rewrite (@local_add_stats (utc_dateStr 19884) 1718100000000 local_form
             [local_run; local_old_run] H).
  reflexivity.
Defined.

(** When two iterations compute the same date text the workouts of that
    date are counted once per iteration. *)
Example client_stats_repeated_date :
  map LocalClient.ds_calories
    (LocalClient.stats (fun _ => "2024-06-10") [local_run]) =
  repeat (Exact 250) 7.
Proof. reflexivity. Qed.

(** Past the bound a sum is a rounded double: 2^53, 1 and 1 on one day. *)
Example client_stats_rounded :
  LocalClient.dayCalories "2024-06-10"
    [LocalClient.mkWorkout 1 "A" "2024-06-10" 30 (2 ^ 53);
     LocalClient.mkWorkout 2 "B" "2024-06-10" 30 1;
     LocalClient.mkWorkout 3 "C" "2024-06-10" 30 1] = Rounded.
Proof. reflexivity. Qed.

(** ** Adding and deleting in the browser *)



Lemma filter_other_ids (i : Z) (ws : list LocalClient.Workout) :
  Forall (fun w => LocalClient.id w <> i) ws ->
  filter (fun w => negb (LocalClient.id w =? i)) ws = ws.
Proof.
  intros H. apply filter_everything.
  eapply Forall_impl; [|exact H]. simpl. intros w Hw.
  apply negb_true_iff, Z.eqb_neq, Hw.
Qed.

(** X14. In the local client, deleting the workout just added gives back
    the list as it was, provided the name was not empty, the dialog was
    confirmed and no older workout carries the same clock value as
    identifier; a dismissed dialog deletes nothing. *)
Theorem local_add_delete (now : Z) (newWorkout : LocalClient.WorkoutForm)
    (ws : list LocalClient.Workout) :
  Forall (fun w => LocalClient.id w <> now) ws ->
  LocalClient.handleDelete true now
    (LocalClient.handleAdd now newWorkout ws) = ws /\
  LocalClient.handleDelete false now
    (LocalClient.handleAdd now newWorkout ws) =
  LocalClient.handleAdd now newWorkout ws.
Proof.
  intros H. split; [|reflexivity].
  unfold LocalClient.handleDelete, LocalClient.handleAdd.
  destruct (LocalClient.nw_name newWorkout =? "")%string.
  - now apply filter_other_ids.
  - simpl. rewrite Z.eqb_refl. simpl. now apply filter_other_ids.
Qed.

Lemma local_add_delete_witness :
  Forall (fun w => LocalClient.id w <> 1718100000000)
    [local_run; local_old_run] /\
  LocalClient.handleDelete true 1718100000000
    (LocalClient.handleAdd 1718100000000 local_form
       [local_run; local_old_run]) = [local_run; local_old_run].
Proof.
  assert (H : Forall (fun w => LocalClient.id w <> 1718100000000)
                [local_run; local_old_run])
    by (repeat constructor; discriminate).
  split; [exact H|].
  exact (proj1 (@local_add_delete 1718100000000 local_form
                  [local_run; local_old_run] H)).
Defined.

(** Two workouts added within one clock tick share their identifier, and
    deleting one deletes both. *)
Example local_delete_same_tick :
  LocalClient.handleDelete true 5
    (LocalClient.handleAdd 5 local_form
       (LocalClient.handleAdd 5 local_form [local_run])) = [local_run].
Proof. reflexivity. Qed.
